(** * GuardAI: a shallow embedding of [guard.scanner] and [guard.clients]

    The scanner reads files, asks git or GitHub which files changed, and
    hands one concatenated text to an AI backend.  Everything it does is an
    interaction with the outside world, so the embedding threads the
    process state (the working directory) through a small state, error and
    trace monad, and takes the outside world as a record of oracles.

    Python [str] is modelled by [string], one character per code point
    below 256. *)

From Stdlib Require Import List String Ascii ZArith Bool Lia DecimalString.
Import ListNotations.
Open Scope string_scope.

Set Warnings "-register-all".

(** ** Python values and the string functions the code calls *)

Module Py.

(** Newline, the only escape the source's literals use. *)
Definition nl : string := String (ascii_of_nat 10) EmptyString.

(** What [argparse] can put in an argument: [None], a [str] or an [int]. *)
Inductive value : Type :=
| VNone
| VStr (s : string)
| VInt (z : Z).

(** Values a backend can answer with: decoded JSON, and [None].  A float is
    kept as its literal, no operation here looks inside one. *)
Inductive pyval : Type :=
| PyNone
| PyBool (b : bool)
| PyInt (z : Z)
| PyFloat (literal : string)
| PyStr (s : string)
| PyList (items : list pyval)
| PyDict (entries : list (string * pyval)).

Definition pyval_of_value (v : value) : pyval :=
  match v with
  | VNone => PyNone
  | VStr s => PyStr s
  | VInt z => PyInt z
  end.

(** [bool(v)]: [None], the empty string and zero are false. *)
Definition truthy (v : value) : bool :=
  match v with
  | VNone => false
  | VStr s => negb (s =? "")
  | VInt z => negb (z =? 0)%Z
  end.

Definition str_of_Z (z : Z) : string := NilZero.string_of_int (Z.to_int z).

(** [str(v)], what an f-string field prints. *)
Definition str (v : value) : string :=
  match v with
  | VNone => "None"
  | VStr s => s
  | VInt z => str_of_Z z
  end.

Definition type_name (v : pyval) : string :=
  match v with
  | PyNone => "NoneType"
  | PyBool _ => "bool"
  | PyInt _ => "int"
  | PyFloat _ => "float"
  | PyStr _ => "str"
  | PyList _ => "list"
  | PyDict _ => "dict"
  end.

(** [str.isspace] on one code point below 256. *)
Definition isspace (c : ascii) : bool :=
  let n := nat_of_ascii c in
  (Nat.leb 9 n && Nat.leb n 13) || (Nat.leb 28 n && Nat.leb n 32)
  || Nat.eqb n 133 || Nat.eqb n 160.

Fixpoint lstrip (s : string) : string :=
  match s with
  | EmptyString => EmptyString
  | String c s' => if isspace c then lstrip s' else s
  end.

Fixpoint rstrip (s : string) : string :=
  match s with
  | EmptyString => EmptyString
  | String c s' =>
      match rstrip s' with
      | EmptyString => if isspace c then EmptyString else String c EmptyString
      | r => String c r
      end
  end.

(** [s.strip()] *)
Definition strip (s : string) : string := rstrip (lstrip s).

(** [s.split(sep)] for a one-character separator. *)
Fixpoint split (sep : ascii) (s : string) : list string :=
  match s with
  | EmptyString => [EmptyString]
  | String c s' =>
      if Ascii.eqb c sep then EmptyString :: split sep s'
      else match split sep s' with
           | piece :: pieces => String c piece :: pieces
           | [] => [String c EmptyString]
           end
  end.

Definition startswith_sep (p : string) : bool :=
  match p with
  | String c _ => Ascii.eqb c "/"
  | EmptyString => false
  end.

Fixpoint endswith_sep (p : string) : bool :=
  match p with
  | EmptyString => false
  | String c EmptyString => Ascii.eqb c "/"
  | String _ p' => endswith_sep p'
  end.

(** [os.path.join(a, b)] (POSIX). *)
Definition path_join (a b : string) : string :=
  if startswith_sep b then b
  else if (a =? "") || endswith_sep a then a ++ b
  else a ++ "/" ++ b.

(** [os.path.basename(p)] (POSIX): what follows the last separator. *)
Definition basename (p : string) : string := last (split "/" p) EmptyString.

(** [needle in haystack] *)
Fixpoint contains (needle haystack : string) : bool :=
  String.prefix needle haystack ||
  match haystack with
  | EmptyString => false
  | String _ rest => contains needle rest
  end.

(** Exceptions, by the classes the [except] clauses of the code tell
    apart.  Every one is a subclass of [Exception]; the string is what
    [str(e)] gives. *)
Inductive exn : Type :=
| ValueError (msg : string)
| UnicodeDecodeError (msg : string)
| OSError (msg : string)
| CalledProcessError (msg : string)
| RequestException (msg : string)
| AttributeError (msg : string)
| IndexError (msg : string)
| OtherError (class_name msg : string).

Definition exn_str (e : exn) : string :=
  match e with
  | ValueError m | UnicodeDecodeError m | OSError m | CalledProcessError m
  | RequestException m | AttributeError m | IndexError m | OtherError _ m => m
  end.

(** [UnicodeDecodeError] is a subclass of [ValueError]. *)
Definition is_ValueError (e : exn) : bool :=
  match e with
  | ValueError _ | UnicodeDecodeError _ => true
  | _ => false
  end.

Definition is_CalledProcessError (e : exn) : bool :=
  match e with
  | CalledProcessError _ => true
  | _ => false
  end.

Definition is_RequestException (e : exn) : bool :=
  match e with
  | RequestException _ => true
  | _ => false
  end.

(** [(UnicodeDecodeError, IOError)]; [IOError] is [OSError]. *)
Definition is_UnicodeDecodeError_or_IOError (e : exn) : bool :=
  match e with
  | UnicodeDecodeError _ | OSError _ => true
  | _ => false
  end.

(** [d.get(key, default)] on a decoded JSON value: only a [dict] has it. *)
Fixpoint lookup (key : string) (entries : list (string * pyval)) : option pyval :=
  match entries with
  | [] => None
  | (k, v) :: rest => if k =? key then Some v else lookup key rest
  end.

Definition get (v : pyval) (key : string) (default : pyval) : exn + pyval :=
  match v with
  | PyDict entries =>
      inr (match lookup key entries with Some x => x | None => default end)
  | _ => inl (AttributeError
                ("'" ++ type_name v ++ "' object has no attribute 'get'"))
  end.

End Py.
Import Py.

(** ** The outside world *)

Inductive level : Type := LvInfo | LvWarning | LvError.

Inductive log_arg : Type :=
| LStr (s : string)
| LNat (n : nat)
| LVal (v : value)
| LExn (e : exn).

Inductive provider : Type := OpenAI | Groq.

Record http_request : Type := {
  req_url : string;
  req_json : pyval;
  req_headers : list (string * string);
  req_timeout : Z
}.

(** What [requests.post] hands back: [raise_for_status()] and [json()]. *)
Record http_response : Type := {
  resp_raise_for_status : option exn;
  resp_json : exn + pyval
}.

(** What the process does that can be seen from outside: log records,
    subprocesses, directory changes, GitHub calls, backend calls. *)
Inductive event : Type :=
| EvLog (lvl : level) (msg : log_arg) (args : list log_arg)
| EvSubprocess (cwd : string) (argv : list string)
| EvChdir (directory : string)
| EvGetRepo (token repo_name : value)
| EvGetPull (token repo_name pr_number : value)
| EvGetFiles (token repo_name pr_number : value)
| EvChatCreate (p : provider) (api_key model : string)
    (messages : list (string * string))
| EvGenerateContent (api_key model prompt : string)
| EvPost (req : http_request).

(** A file that was opened either decodes to a text or fails on [read()];
    both [open] and [read] fail with [UnicodeDecodeError] or [OSError]
    only. *)
Inductive file_error : Type :=
| DecodeError (msg : string)
| IOError (msg : string).

Definition exn_of_file_error (fe : file_error) : exn :=
  match fe with
  | DecodeError m => UnicodeDecodeError m
  | IOError m => OSError m
  end.

Record World : Type := {
  w_check_output : string -> list string -> exn + string;
  w_chdir : string -> string -> exn + string;
  w_isfile : string -> string -> bool;
  w_open : string -> string -> file_error + (file_error + string);
  w_walk : string -> string -> list (string * list string * list string);
  w_get_repo : value -> value -> option exn;
  w_get_pull : value -> value -> value -> option exn;
  w_get_files : value -> value -> value -> exn + list string;
  w_chat_create :
    provider -> string -> string -> list (string * string) -> exn + list pyval;
  w_generate_content : string -> string -> string -> exn + (exn + pyval);
  w_post : http_request -> exn + http_response
}.

(** ** The monad: working directory, exceptions, trace *)

Module Run.

Record proc : Type := { cwd : string }.

Definition M (A : Type) : Type := proc -> (exn + A) * proc * list event.

Definition ret {A} (a : A) : M A := fun p => (inr a, p, []).

Definition raise {A} (e : exn) : M A := fun p => (inl e, p, []).

Definition bind {A B} (m : M A) (k : A -> M B) : M B :=
  fun p =>
    match m p with
    | (inl e, p', t) => (inl e, p', t)
    | (inr a, p', t) =>
        match k a p' with
        | (r, p'', t') => (r, p'', (t ++ t')%list)
        end
    end.

(** [try: m except Exception as e:], the handler is the caller's [match]. *)
Definition try {A} (m : M A) : M (exn + A) :=
  fun p => match m p with (r, p', t) => (inr r, p', t) end.

Definition emit (e : event) : M unit := fun p => (inr tt, p, [e]).

Definition get_cwd : M string := fun p => (inr (cwd p), p, []).

Definition set_cwd (d : string) : M unit := fun _ => (inr tt, {| cwd := d |}, []).

Definition lift {A} (r : exn + A) : M A :=
  match r with
  | inl e => raise e
  | inr a => ret a
  end.

Definition result {A} (x : (exn + A) * proc * list event) : exn + A := fst (fst x).
Definition final {A} (x : (exn + A) * proc * list event) : proc := snd (fst x).
Definition trace {A} (x : (exn + A) * proc * list event) : list event := snd x.

End Run.
Import Run.

Declare Scope run_scope.
Delimit Scope run_scope with run.
Notation "x <- m ;; k" := (bind m (fun x => k))
  (at level 61, m at next level, right associativity) : run_scope.
Notation "m ;; k" := (bind m (fun _ => k))
  (at level 61, right associativity) : run_scope.
Open Scope run_scope.

(** ** Calls into the outside world *)

Section Actions.
Variable w : World.

Definition lift_opt (r : option exn) : M unit :=
  match r with
  | Some e => raise e
  | None => ret tt
  end.

Definition logging (lvl : level) (msg : string) (args : list log_arg) : M unit :=
  emit (EvLog lvl (LStr msg) args).

(** [subprocess.check_output(argv)], run in the current directory. *)
Definition check_output (argv : list string) : M string :=
  d <- get_cwd ;;
  emit (EvSubprocess d argv) ;;
  lift (w_check_output w d argv).

(** [os.chdir(directory)] *)
Definition chdir (directory : string) : M unit :=
  d <- get_cwd ;;
  emit (EvChdir directory) ;;
  d' <- lift (w_chdir w d directory) ;;
  set_cwd d'.

(** [os.path.isfile(path)] *)
Definition isfile (path : string) : M bool :=
  d <- get_cwd ;;
  ret (w_isfile w d path).

(** [open(path, "r", encoding="utf-8")]: the handle is what [read()] will
    give. *)
Definition open_utf8 (path : string) : M (file_error + string) :=
  d <- get_cwd ;;
  match w_open w d path with
  | inl fe => raise (exn_of_file_error fe)
  | inr f => ret f
  end.

(** [f.read()] *)
Definition read (f : file_error + string) : M string :=
  match f with
  | inl fe => raise (exn_of_file_error fe)
  | inr text => ret text
  end.

(** [os.walk(directory)] *)
Definition walk (directory : string)
  : M (list (string * list string * list string)) :=
  d <- get_cwd ;;
  ret (w_walk w d directory).

Definition post (req : http_request) : M http_response :=
  emit (EvPost req) ;;
  lift (w_post w req).

Definition chat_create (p : provider) (api_key model : string)
    (messages : list (string * string)) : M (list pyval) :=
  emit (EvChatCreate p api_key model messages) ;;
  lift (w_chat_create w p api_key model messages).

Definition generate_content (api_key model prompt : string)
  : M (exn + pyval) :=
  emit (EvGenerateContent api_key model prompt) ;;
  lift (w_generate_content w api_key model prompt).

End Actions.

(** ** guard/clients.py *)

Module Clients.

(** The persona texts, as the triple-quoted literals spell them. *)

Definition OpenAI_system_prompt : string :=
"You are an expert in software security analysis, 
                    adept at identifying and explaining potential vulnerabilities in code. You will be 
                    given complete code snippets from various applications. Your task is to analyze 
                    the provided code, pinpoint potential security risks, and offer clear suggestions 
                    for enhancing the application's security posture. Focus on the critical issues that 
                    could impact the overall security of the application.".

Definition Google_prompt : string :=
"You are a specialist in application security, known for your ability to 
                analyze complex codebases and uncover hidden vulnerabilities. You will be 
                presented with the full code of an application. Your mission is to conduct 
                a thorough security review, identifying potential weaknesses and offering 
                actionable recommendations for improvement. Prioritize the most significant 
                security risks that could compromise the integrity of the application. 
                Here is the code:".

Definition Groq_system_prompt : string :=
"You are an expert in software security analysis, 
                    adept at identifying and explaining potential vulnerabilities in code. You will be 
                    given complete code snippets from various applications. Your task is to analyze 
                    the provided code, pinpoint potential security risks, and offer clear suggestions 
                    for enhancing the application's security posture. Focus on the critical issues that 
                    could impact the overall security of the application.".

Definition Custom_prompt : string :=
"You are an experienced application security specialist, entrusted with the task of 
                    carefully reviewing the following code for potential security vulnerabilities. Your objective 
                    is to conduct a comprehensive analysis, identifying any weak points that could be exploited 
                    by malicious actors. Once identified, provide clear and actionable recommendations to 
                    mitigate these risks and strengthen the overall security posture of the application. 
                    Focus on issues that could compromise the integrity, confidentiality, or availability 
                    of the system, and ensure that your suggestions are practical and implementable. 
                    Here is the code you need to review:
                    ".

Record hosted_client : Type := {
  api_key : string;
  model : string
}.

Record custom_client : Type := {
  custom_model : value;
  host : value;
  port : value;
  token : value;
  endpoint : value;
  base_url : string
}.

(** [CustomAIClient.__init__] *)
Definition CustomAIClient_init (model host port token endpoint : value)
  : custom_client :=
  {| custom_model := model;
     host := host;
     port := port;
     token := token;
     endpoint := endpoint;
     base_url := str host ++ ":" ++ str port ++ str endpoint |}.

Inductive ai_client : Type :=
| OpenAIClient (c : hosted_client)
| GoogleClient (c : hosted_client)
| GroqClient (c : hosted_client)
| CustomAIClient (c : custom_client).

Section WithWorld.
Variable w : World.

(** [response.choices[0].message.content] *)
Definition first_choice (choices : list pyval) : M pyval :=
  match choices with
  | content :: _ => ret content
  | [] => raise (IndexError "list index out of range")
  end.

(** [except Exception as e: return f"Error occurred: {e}"] *)
Definition except_Exception (r : exn + pyval) : M pyval :=
  match r with
  | inr v => ret v
  | inl e => ret (PyStr ("Error occurred: " ++ exn_str e))
  end.

(** The bodies of the [try] blocks of the three hosted variants. *)
Definition OpenAIClient_exchange (self : hosted_client) (code_summary : string)
  : M pyval :=
  choices <- chat_create w OpenAI (api_key self) (model self)
               [("system", OpenAI_system_prompt); ("user", code_summary)] ;;
  first_choice choices.

Definition GoogleClient_exchange (self : hosted_client) (code_summary : string)
  : M pyval :=
  response <- generate_content w (api_key self) (model self)
                (Google_prompt ++ code_summary) ;;
  lift response.

Definition GroqClient_exchange (self : hosted_client) (code_summary : string)
  : M pyval :=
  choices <- chat_create w Groq (api_key self) (model self)
               [("system", Groq_system_prompt); ("user", code_summary)] ;;
  first_choice choices.

Definition OpenAIClient_scan_code (self : hosted_client) (code_summary : string)
  : M pyval :=
  r <- try (OpenAIClient_exchange self code_summary) ;;
  except_Exception r.

Definition GoogleClient_scan_code (self : hosted_client) (code_summary : string)
  : M pyval :=
  r <- try (GoogleClient_exchange self code_summary) ;;
  except_Exception r.

Definition GroqClient_scan_code (self : hosted_client) (code_summary : string)
  : M pyval :=
  r <- try (GroqClient_exchange self code_summary) ;;
  except_Exception r.

Definition custom_headers (self : custom_client) : list (string * string) :=
  [("Authorization",
    if truthy (token self) then "Bearer " ++ str (token self) else "")].

Definition custom_payload (self : custom_client) (code_summary : string) : pyval :=
  PyDict [("model", pyval_of_value (custom_model self));
          ("messages",
           PyList [PyDict [("role", PyStr "user");
                           ("content", PyStr (Custom_prompt ++ code_summary))]])].

(** The body of the [try] block of [CustomAIClient.scan_code]. *)
Definition CustomAIClient_exchange (self : custom_client) (code_summary : string)
  : M pyval :=
  let headers := custom_headers self in
  let payload := custom_payload self code_summary in
  response <- post w {| req_url := base_url self;
                        req_json := payload;
                        req_headers := headers;
                        req_timeout := 120 |} ;;
  lift_opt (resp_raise_for_status response) ;;
  body <- lift (resp_json response) ;;
  message <- lift (get body "message" (PyDict [])) ;;
  lift (get message "content" (PyStr "No response content.")).

Definition CustomAIClient_scan_code (self : custom_client) (code_summary : string)
  : M pyval :=
  r <- try (CustomAIClient_exchange self code_summary) ;;
  match r with
  | inr v => ret v
  | inl e =>
      if is_RequestException e
      then ret (PyStr ("Error occurred while connecting to the server: "
                       ++ exn_str e))
      else raise e
  end.

(** [ai_client.scan_code(code_summary)] *)
Definition scan_code (client : ai_client) (code_summary : string) : M pyval :=
  match client with
  | OpenAIClient c => OpenAIClient_scan_code c code_summary
  | GoogleClient c => GoogleClient_scan_code c code_summary
  | GroqClient c => GroqClient_scan_code c code_summary
  | CustomAIClient c => CustomAIClient_scan_code c code_summary
  end.

End WithWorld.

(** *** The constructors *)

(** [os.getenv]: the process environment, [None] for an unset variable. *)
Definition environ : Type := string -> option string.

(** [if not self.api_key]: the variable is unset or empty. *)
Definition key_missing (api_key : option string) : bool :=
  match api_key with
  | None => true
  | Some k => k =? ""
  end.

(** [OpenAIClient.__init__] *)
Definition OpenAIClient_init (env : environ) (model : string)
  : exn + hosted_client :=
  match env "OPENAI_API_KEY" with
  | Some k =>
      if key_missing (Some k)
      then inl (ValueError "OpenAI API key is not set in the environment.")
      else inr {| api_key := k; model := model |}
  | None => inl (ValueError "OpenAI API key is not set in the environment.")
  end.

(** [GoogleClient.__init__] *)
Definition GoogleClient_init (env : environ) (model : string)
  : exn + hosted_client :=
  match env "GEMINI_API_KEY" with
  | Some k =>
      if key_missing (Some k)
      then inl (ValueError "Gemini API key is not set in the environment.")
      else inr {| api_key := k; model := model |}
  | None => inl (ValueError "Gemini API key is not set in the environment.")
  end.

(** [GroqClient.__init__] *)
Definition GroqClient_init (env : environ) (model : string)
  : exn + hosted_client :=
  match env "GROQ_API_KEY" with
  | Some k =>
      if key_missing (Some k)
      then inl (ValueError "Groq API key is not set in the environment.")
      else inr {| api_key := k; model := model |}
  | None => inl (ValueError "Groq API key is not set in the environment.")
  end.

End Clients.

(** ** guard/scanner.py *)

Module Scanner.
Import Clients.

Section WithWorld.
Variable w : World.

Definition is_git_repo (directory : string) : M bool :=
  r <- try (check_output w
              ["git"; "-C"; directory; "rev-parse"; "--is-inside-work-tree"]) ;;
  match r with
  | inr _ => ret true
  | inl e =>
      if is_CalledProcessError e
      then logging LvError "Directory is not a valid Git repository: %s"
             [LStr directory] ;;
           ret false
      else raise e
  end.

Definition get_pr_changed_files (repo_name pr_number github_token : value)
  : M (list string) :=
  emit (EvGetRepo github_token repo_name) ;;
  lift_opt (w_get_repo w github_token repo_name) ;;
  emit (EvGetPull github_token repo_name pr_number) ;;
  lift_opt (w_get_pull w github_token repo_name pr_number) ;;
  emit (EvGetFiles github_token repo_name pr_number) ;;
  changed_files <- lift (w_get_files w github_token repo_name pr_number) ;;
  logging LvInfo "Fetched %d changed files from PR #%d in repo %s"
    [LNat (List.length changed_files); LVal pr_number; LVal repo_name] ;;
  ret changed_files.

(** The [except (UnicodeDecodeError, IOError)] clause of the reader.
    [code_summary] is the local variable as the [try] body left it. *)
Definition except_skip (file_path : string) (e : exn) (code_summary : string)
  : M string :=
  if is_UnicodeDecodeError_or_IOError e
  then logging LvWarning "Skipping file %s: %s" [LStr file_path; LExn e] ;;
       ret code_summary
  else raise e.

(** One turn of the [for file_path in file_paths] loop. *)
Definition read_file_step (code_summary file_path : string) : M string :=
  is_file <- isfile w file_path ;;
  if is_file then
    opened <- try (open_utf8 w file_path) ;;
    match opened with
    | inl e => except_skip file_path e code_summary
    | inr f =>
        logging LvInfo "Reading %s" [LStr file_path] ;;
        let code_summary :=
          code_summary ++ (nl ++ nl ++ "File: " ++ basename file_path ++ nl) in
        content <- try (read f) ;;
        match content with
        | inl e => except_skip file_path e code_summary
        | inr text => ret (code_summary ++ text)
        end
    end
  else
    logging LvWarning "Skipped %s: Not a valid file." [LStr file_path] ;;
    ret code_summary.

Fixpoint for_each {A S : Type} (body : S -> A -> M S) (items : list A) (s : S)
  : M S :=
  match items with
  | [] => ret s
  | x :: rest => s' <- body s x ;; for_each body rest s'
  end.

Definition read_files_and_generate_summary (file_paths : list string)
  : M string :=
  for_each read_file_step file_paths "".

Definition scan_files (directory : string) (ai_client : ai_client) : M pyval :=
  walked <- walk w directory ;;
  let file_paths :=
    flat_map (fun entry : string * list string * list string =>
                match entry with
                | (root, _, files) => map (path_join root) files
                end) walked in
  code_summary <- read_files_and_generate_summary file_paths ;;
  scan_code w ai_client code_summary.

Definition generate_code_summary (directory : string)
    (changed_files : list string) : M string :=
  let file_paths := map (path_join directory) changed_files in
  read_files_and_generate_summary file_paths.

Definition get_changed_files (directory : string) : M (list string) :=
  r <- try (chdir w directory ;;
            result <- check_output w ["git"; "diff"; "--name-only"] ;;
            if negb (String.eqb (strip result) "")
            then
              let changed_files := split (ascii_of_nat 10) (strip result) in
              logging LvInfo "Found %d changed files in local repository"
                [LNat (List.length changed_files)] ;;
              ret changed_files
            else ret []) ;;
  match r with
  | inr changed_files => ret changed_files
  | inl e =>
      if is_CalledProcessError e
      then logging LvError "Error getting changed files: %s" [LExn e] ;;
           ret []
      else raise e
  end.

Definition fetch_changed_files_from_pr (repo pr_number github_token : value)
  : M (list string) :=
  if negb (truthy github_token)
  then logging LvError "GitHub token is required for scanning PR changes." [] ;;
       raise (ValueError "GitHub token is required for scanning PR changes.")
  else get_pr_changed_files repo pr_number github_token.

Definition fetch_changed_files_from_repo (directory : string)
  : M (list string) :=
  valid <- is_git_repo directory ;;
  if negb valid
  then logging LvError "Directory is not a valid Git repository: %s"
         [LStr directory] ;;
       raise (ValueError "Directory is not a valid Git repository.")
  else get_changed_files directory.

(** The [if repo and pr_number] of [scan_changes]. *)
Definition resolve (directory : string) (repo pr_number github_token : value)
  : M (list string) :=
  if truthy repo && truthy pr_number
  then fetch_changed_files_from_pr repo pr_number github_token
  else fetch_changed_files_from_repo directory.

Definition scan_changes (directory : string) (ai_client : ai_client)
    (repo pr_number github_token : value) : M pyval :=
  r <- try (resolve directory repo pr_number github_token) ;;
  match r with
  | inl e =>
      if is_ValueError e
      then emit (EvLog LvError (LExn e) []) ;;
           ret (PyStr (exn_str e))
      else raise e
  | inr changed_files =>
      match changed_files with
      | [] =>
          logging LvInfo "No changes detected in the directory." [] ;;
          ret (PyStr "No changes detected in the directory.")
      | _ :: _ =>
          code_summary <- generate_code_summary directory changed_files ;;
          scan_code w ai_client code_summary
      end
  end.

End WithWorld.

End Scanner.

(** ** guard/cli.py *)

Module Cli.
Import Clients Scanner.

(** The [choices] of [--provider]. *)
Inductive provider_choice : Type :=
| ChOpenai
| ChGoogle
| ChGroq
| ChCustom.

(** What [parse_arguments] returns: a [str] option is a string or [None],
    an [int] option an integer or [None]; [--directory] and [--endpoint]
    have defaults, [--changes_only] is a flag. *)
Record args : Type := {
  provider : provider_choice;
  directory : string;
  model : option string;
  changes_only : bool;
  repo : option string;
  pr_number : option Z;
  github_token : option string;
  host : option string;
  port : option Z;
  token : option string;
  endpoint : string
}.

Definition value_of_str (o : option string) : value :=
  match o with
  | Some s => VStr s
  | None => VNone
  end.

Definition value_of_int (o : option Z) : value :=
  match o with
  | Some z => VInt z
  | None => VNone
  end.

(** The [default_models] dict; it has no entry for the custom provider. *)
Definition default_models (p : provider_choice) : option string :=
  match p with
  | ChOpenai => Some "gpt-4o-mini"
  | ChGoogle => Some "gemini-pro"
  | ChGroq => Some "llama3-8b-8192"
  | ChCustom => None
  end.

(** [model if model else default_models[provider]] *)
Definition chosen_model (provider : provider_choice) (model : option string)
  : exn + string :=
  if truthy (value_of_str model) then inr (str (value_of_str model))
  else match default_models provider with
       | Some default => inr default
       | None => inl (OtherError "KeyError" "'custom'")
       end.

Definition construct (variant : hosted_client -> ai_client)
    (init : string -> exn + hosted_client) (model : exn + string)
  : exn + ai_client :=
  match model with
  | inl e => inl e
  | inr m =>
      match init m with
      | inl e => inl e
      | inr c => inr (variant c)
      end
  end.

Definition initialize_client (env : environ) (provider : provider_choice)
    (model host : option string) (port : option Z) (token : option string)
    (endpoint : option string) : exn + ai_client :=
  match provider with
  | ChCustom =>
      inr (CustomAIClient
             (CustomAIClient_init (value_of_str model) (value_of_str host)
                (value_of_int port) (value_of_str token)
                (value_of_str endpoint)))
  | ChOpenai =>
      construct OpenAIClient (OpenAIClient_init env)
        (chosen_model provider model)
  | ChGoogle =>
      construct GoogleClient (GoogleClient_init env)
        (chosen_model provider model)
  | ChGroq =>
      construct GroqClient (GroqClient_init env)
        (chosen_model provider model)
  end.

(** [x if x else None] *)
Definition or_None (v : value) : value := if truthy v then v else VNone.

Section WithWorld.
Variable w : World.

Definition scan (a : args) (ai_client : ai_client) : M pyval :=
  if changes_only a
  then scan_changes w (directory a) ai_client
         (or_None (value_of_str (repo a)))
         (or_None (value_of_int (pr_number a)))
         (or_None (value_of_str (github_token a)))
  else scan_files w (directory a) ai_client.

End WithWorld.

Definition dq : string := String (ascii_of_nat 34) EmptyString.

(** [output += result] concatenates to a [str] only. *)
Definition format_as_markdown (result : pyval) : exn + string :=
  let output := "## Code Security Analysis Results" ++ nl in
  match result with
  | PyStr text => inr (output ++ text)
  | other =>
      inl (OtherError "TypeError"
             ("can only concatenate str (not " ++ dq ++ type_name other ++ dq
              ++ ") to str"))
  end.

(** [main], from the parsed arguments to the text handed to
    [display_markdown]. *)
Definition main_body (env : environ) (w : World) (a : args) : M string :=
  ai_client <- lift (initialize_client env (provider a) (model a) (host a)
                       (port a) (token a) (Some (endpoint a))) ;;
  result <- scan w a ai_client ;;
  lift (format_as_markdown result).

End Cli.

(** ** Worlds to run the code in *)

Module Fixtures.

(** Nothing on disk, git answers with empty output, every remote call
    succeeds with an empty answer. *)
Definition quiet : World :=
  {| w_check_output := fun _ _ => inr "";
     w_chdir := fun _ d => inr d;
     w_isfile := fun _ _ => false;
     w_open := fun _ _ => inl (IOError "[Errno 2] No such file or directory");
     w_walk := fun _ _ => [];
     w_get_repo := fun _ _ => None;
     w_get_pull := fun _ _ _ => None;
     w_get_files := fun _ _ _ => inr [];
     w_chat_create := fun _ _ _ _ => inr [];
     w_generate_content := fun _ _ _ => inr (inr (PyStr ""));
     w_post := fun _ =>
       inr {| resp_raise_for_status := None; resp_json := inr (PyDict []) |} |}.

Definition with_files (w : World) (is_file : string -> string -> bool)
    (open_ : string -> string -> file_error + (file_error + string)) : World :=
  {| w_check_output := w_check_output w;
     w_chdir := w_chdir w;
     w_isfile := is_file;
     w_open := open_;
     w_walk := w_walk w;
     w_get_repo := w_get_repo w;
     w_get_pull := w_get_pull w;
     w_get_files := w_get_files w;
     w_chat_create := w_chat_create w;
     w_generate_content := w_generate_content w;
     w_post := w_post w |}.

Definition with_check_output (w : World)
    (run : string -> list string -> exn + string) : World :=
  {| w_check_output := run;
     w_chdir := w_chdir w;
     w_isfile := w_isfile w;
     w_open := w_open w;
     w_walk := w_walk w;
     w_get_repo := w_get_repo w;
     w_get_pull := w_get_pull w;
     w_get_files := w_get_files w;
     w_chat_create := w_chat_create w;
     w_generate_content := w_generate_content w;
     w_post := w_post w |}.

Definition with_post (w : World) (answer : http_request -> exn + http_response)
  : World :=
  {| w_check_output := w_check_output w;
     w_chdir := w_chdir w;
     w_isfile := w_isfile w;
     w_open := w_open w;
     w_walk := w_walk w;
     w_get_repo := w_get_repo w;
     w_get_pull := w_get_pull w;
     w_get_files := w_get_files w;
     w_chat_create := w_chat_create w;
     w_generate_content := w_generate_content w;
     w_post := answer |}.

Definition with_chat_create (w : World)
    (answer : provider -> string -> string -> list (string * string)
              -> exn + list pyval) : World :=
  {| w_check_output := w_check_output w;
     w_chdir := w_chdir w;
     w_isfile := w_isfile w;
     w_open := w_open w;
     w_walk := w_walk w;
     w_get_repo := w_get_repo w;
     w_get_pull := w_get_pull w;
     w_get_files := w_get_files w;
     w_chat_create := answer;
     w_generate_content := w_generate_content w;
     w_post := w_post w |}.

(** A directory holding [bad.bin], whose bytes are not UTF-8 (the byte
    0xff alone), and [ok.py], whose text is [x=1]. *)
Definition binary_file_world : World :=
  with_files quiet
    (fun _ path => (path =? "bad.bin") || (path =? "ok.py"))
    (fun _ path =>
       if path =? "bad.bin"
       then inr (inl (DecodeError
              "'utf-8' codec can't decode byte 0xff in position 0: invalid start byte"))
       else if path =? "ok.py" then inr (inr "x=1")
       else inl (IOError "[Errno 2] No such file or directory")).

(** A machine without a [git] executable. *)
Definition no_git_world : World :=
  with_check_output quiet
    (fun _ _ => inl (OSError "[Errno 2] No such file or directory: 'git'")).

(** [git] runs, and says the directory is not a work tree. *)
Definition not_a_repo_world : World :=
  with_check_output quiet
    (fun _ _ => inl (CalledProcessError
       "Command 'git' returned non-zero exit status 128.")).

(** A server that answers 200 with the body [{"message": "ok"}]. *)
Definition flat_message_world : World :=
  with_post quiet
    (fun _ => inr {| resp_raise_for_status := None;
                     resp_json := inr (PyDict [("message", PyStr "ok")]) |}).

(** A server that cannot be reached. *)
Definition unreachable_world : World :=
  with_post quiet (fun _ => inl (RequestException "Connection refused")).

(** A provider whose client library raises. *)
Definition failing_provider_world : World :=
  with_chat_create quiet (fun _ _ _ _ => inl (OtherError "APIError" "boom")).

(** A work tree with two modified files; every path is a regular file
    holding [sample code], and the chat providers answer [Scan result]. *)
Definition two_changes_world : World :=
  with_chat_create
    (with_files
       (with_check_output quiet
          (fun _ argv =>
             match argv with
             | ["git"; "diff"; "--name-only"] =>
                 inr ("file1.py" ++ nl ++ "file2.py" ++ nl)
             | _ => inr ("true" ++ nl)
             end))
       (fun _ _ => true)
       (fun _ _ => inr (inr "sample code")))
    (fun _ _ _ _ => inr [PyStr "Scan result"]).

(** Every path is a regular file, and [open] raises [UnicodeDecodeError],
    as the mock of the test suite does. *)
Definition open_raises_world : World :=
  with_files quiet (fun _ _ => true)
    (fun _ _ => inl (DecodeError "decoding error")).

Definition here : proc := {| cwd := "/work" |}.

Definition a_hosted_client : Clients.hosted_client :=
  {| Clients.api_key := "key"; Clients.model := "gpt-4o-mini" |}.

Definition a_custom_client : Clients.custom_client :=
  Clients.CustomAIClient_init (VStr "m") (VStr "http://localhost") (VInt 8000)
    VNone (VStr "/api/v1/scan").

End Fixtures.

(** ** Observations on a run *)

Import Clients Scanner.

Definition is_log (e : event) : bool :=
  match e with
  | EvLog _ _ _ => true
  | _ => false
  end.

(** A request sent to an AI backend. *)
Definition is_backend_call (e : event) : bool :=
  match e with
  | EvChatCreate _ _ _ _ | EvGenerateContent _ _ _ | EvPost _ => true
  | _ => false
  end.

(** A call to the GitHub API. *)
Definition is_github_call (e : event) : bool :=
  match e with
  | EvGetRepo _ _ | EvGetPull _ _ _ | EvGetFiles _ _ _ => true
  | _ => false
  end.

(** Work on the local repository: a [git] subprocess or a [chdir]. *)
Definition is_local_git (e : event) : bool :=
  match e with
  | EvSubprocess _ _ | EvChdir _ => true
  | _ => false
  end.

Definition emits_only {A} (P : event -> bool) (m : M A) : Prop :=
  forall p, forallb P (trace (m p)) = true.

(** The header line the reader writes before a file's text. *)
Definition header (file_path : string) : string :=
  nl ++ nl ++ "File: " ++ basename file_path ++ nl.

(** What one path adds to the summary, read off the file system: nothing
    for a path that is no regular file or cannot be opened, the header and
    the text for a file that reads, and the header alone for a file that
    opens and then fails in [read()]. *)
Definition contribution (w : World) (d file_path : string) : string :=
  if w_isfile w d file_path then
    match w_open w d file_path with
    | inl _ => ""
    | inr (inl _) => header file_path
    | inr (inr text) => header file_path ++ text
    end
  else "".

(** The section of a path that is a regular file readable as UTF-8 text,
    and nothing for any other path. *)
Definition readable_section (w : World) (d file_path : string) : string :=
  if w_isfile w d file_path then
    match w_open w d file_path with
    | inr (inr text) => header file_path ++ text
    | _ => ""
    end
  else "".

(** The log records one path leaves. *)
Definition records (w : World) (d file_path : string) : list event :=
  if w_isfile w d file_path then
    match w_open w d file_path with
    | inl fe =>
        [EvLog LvWarning (LStr "Skipping file %s: %s")
           [LStr file_path; LExn (exn_of_file_error fe)]]
    | inr (inl fe) =>
        [EvLog LvInfo (LStr "Reading %s") [LStr file_path];
         EvLog LvWarning (LStr "Skipping file %s: %s")
           [LStr file_path; LExn (exn_of_file_error fe)]]
    | inr (inr _) => [EvLog LvInfo (LStr "Reading %s") [LStr file_path]]
    end
  else
    [EvLog LvWarning (LStr "Skipped %s: Not a valid file.") [LStr file_path]].

(** The request [CustomAIClient.scan_code] is to send, spelled out. *)
Definition custom_request (model host port token endpoint : value)
    (code_summary : string) : http_request :=
  {| req_url := str host ++ ":" ++ str port ++ str endpoint;
     req_json :=
       PyDict [("model", pyval_of_value model);
               ("messages",
                PyList [PyDict [("role", PyStr "user");
                                ("content",
                                 PyStr (Custom_prompt ++ code_summary))]])];
     req_headers :=
       [("Authorization",
         if truthy token then "Bearer " ++ str token else "")];
     req_timeout := 120 |}.

Definition header_value (name : string) (headers : list (string * string))
  : option string :=
  option_map snd (find (fun h => fst h =? name) headers).

Definition rev_parse (directory : string) : list string :=
  ["git"; "-C"; directory; "rev-parse"; "--is-inside-work-tree"].

Definition is_hosted (client : ai_client) : bool :=
  match client with
  | CustomAIClient _ => false
  | _ => true
  end.

(** The [try] body of the client's [scan_code]. *)
Definition exchange (w : World) (client : ai_client) (code_summary : string)
  : M pyval :=
  match client with
  | OpenAIClient c => OpenAIClient_exchange w c code_summary
  | GoogleClient c => GoogleClient_exchange w c code_summary
  | GroqClient c => GroqClient_exchange w c code_summary
  | CustomAIClient c => CustomAIClient_exchange w c code_summary
  end.

(** ** Further observations *)

(** How many backend requests a trace holds. *)
Definition backend_calls (t : list event) : nat :=
  List.length (filter is_backend_call t).

Fixpoint has_char (c : ascii) (s : string) : bool :=
  match s with
  | EmptyString => false
  | String x rest => Ascii.eqb x c || has_char c rest
  end.

(** The last character is no white space. *)
Fixpoint ends_nonspace (s : string) : bool :=
  match s with
  | EmptyString => false
  | String c EmptyString => negb (isspace c)
  | String _ rest => ends_nonspace rest
  end.

Definition git_diff : list string := ["git"; "diff"; "--name-only"].

(** The hosted part of a client, if it has one. *)
Definition hosted_part (client : ai_client) : option hosted_client :=
  match client with
  | OpenAIClient c | GoogleClient c | GroqClient c => Some c
  | CustomAIClient _ => None
  end.


(** The environment variable a provider's constructor reads. *)
Definition key_variable (provider : Cli.provider_choice) : option string :=
  match provider with
  | Cli.ChOpenai => Some "OPENAI_API_KEY"
  | Cli.ChGoogle => Some "GEMINI_API_KEY"
  | Cli.ChGroq => Some "GROQ_API_KEY"
  | Cli.ChCustom => None
  end.

(** The section of a changed file that is a regular file readable as
    UTF-8 text, looked up under [directory] and named by its own base
    name; nothing for any other changed file. *)
Definition changed_section (w : World) (d directory file : string) : string :=
  if w_isfile w d (path_join directory file) then
    match w_open w d (path_join directory file) with
    | inr (inr text) => header file ++ text
    | _ => ""
    end
  else "".

(** The chat variant of a provider, and its persona text. *)
Definition chat_client (pr : provider) (c : hosted_client) : ai_client :=
  match pr with
  | OpenAI => OpenAIClient c
  | Groq => GroqClient c
  end.

Definition system_prompt (pr : provider) : string :=
  match pr with
  | OpenAI => OpenAI_system_prompt
  | Groq => Groq_system_prompt
  end.

Module Cases.

(** A work tree in which [git diff] exits non-zero. *)
Definition diff_fails_world : World :=
  Fixtures.with_check_output Fixtures.quiet
    (fun _ argv =>
       match argv with
       | ["git"; "diff"; "--name-only"] =>
           inl (CalledProcessError
                  "Command 'git' returned non-zero exit status 129.")
       | _ => inr ("true" ++ nl)
       end).

(** A server that answers 200 with a JSON array. *)
Definition array_body_world : World :=
  Fixtures.with_post Fixtures.quiet
    (fun _ => inr {| resp_raise_for_status := None;
                     resp_json := inr (PyList []) |}).

(** A chat provider that answers without choices. *)
Definition no_choice_world : World :=
  Fixtures.with_chat_create Fixtures.quiet (fun _ _ _ _ => inr []).

(** A chat provider whose first choice has no text. *)
Definition null_content_world : World :=
  Fixtures.with_chat_create
    (Fixtures.with_files Fixtures.quiet (fun _ _ => true)
       (fun _ _ => inr (inr "x=1")))
    (fun _ _ _ _ => inr [PyNone]).

(** GitHub does not know the repository. *)
Definition unknown_repo_world : World :=
  {| w_check_output := w_check_output Fixtures.quiet;
     w_chdir := w_chdir Fixtures.quiet;
     w_isfile := w_isfile Fixtures.quiet;
     w_open := w_open Fixtures.quiet;
     w_walk := w_walk Fixtures.quiet;
     w_get_repo := fun _ _ => Some (OtherError "UnknownObjectException" "404");
     w_get_pull := w_get_pull Fixtures.quiet;
     w_get_files := w_get_files Fixtures.quiet;
     w_chat_create := w_chat_create Fixtures.quiet;
     w_generate_content := w_generate_content Fixtures.quiet;
     w_post := w_post Fixtures.quiet |}.


Definition all_keys : environ := fun _ => Some "secret".

Definition some_args : Cli.args :=
  {| Cli.provider := Cli.ChOpenai;
     Cli.directory := ".";
     Cli.model := None;
     Cli.changes_only := false;
     Cli.repo := None;
     Cli.pr_number := None;
     Cli.github_token := None;
     Cli.host := None;
     Cli.port := None;
     Cli.token := None;
     Cli.endpoint := "/api/v1/scan" |}.

End Cases.

(** * Properties *)

(** ** Running a computation *)

Section RunFacts.
Context {A B : Type}.

Lemma bind_ok (m : M A) (k : A -> M B) p a p' t :
  m p = (inr a, p', t) ->
  bind m k p = (result (k a p'), final (k a p'), (t ++ trace (k a p'))%list).
Proof.
  intros Hm. unfold bind, result, final, trace. rewrite Hm.
  destruct (k a p') as [[r p''] t']. reflexivity.
Qed.

Lemma bind_raise (m : M A) (k : A -> M B) p e p' t :
  m p = (inl e, p', t) -> bind m k p = (inl e, p', t).
Proof. intros Hm. unfold bind. rewrite Hm. reflexivity. Qed.

Lemma run_eta (x : (exn + A) * proc * list event) :
  x = (result x, final x, trace x).
Proof. destruct x as [[r p] t]. reflexivity. Qed.

End RunFacts.

(** ** What a computation can emit *)

Section EmitsOnly.
Context {A B : Type} (P : event -> bool).

Lemma emits_only_ret (a : A) : emits_only P (ret a).
Proof. intros p. reflexivity. Qed.

Lemma emits_only_raise (e : exn) : emits_only P (@raise A e).
Proof. intros p. reflexivity. Qed.

Lemma emits_only_lift (r : exn + A) : emits_only P (lift r).
Proof. destruct r; intros p; reflexivity. Qed.

Lemma emits_only_bind (m : M A) (k : A -> M B) :
  emits_only P m -> (forall a, emits_only P (k a)) -> emits_only P (bind m k).
Proof.
  intros Hm Hk p. specialize (Hm p). unfold bind, trace in *.
  destruct (m p) as [[[e | a] p'] t]; simpl in *; [exact Hm |].
  specialize (Hk a p'). unfold trace in Hk.
  destruct (k a p') as [[r p''] t']. simpl in *.
  rewrite forallb_app, Hm, Hk. reflexivity.
Qed.

Lemma emits_only_try (m : M A) : emits_only P m -> emits_only P (try m).
Proof.
  intros Hm p. specialize (Hm p). unfold try, trace in *.
  destruct (m p) as [[r p'] t]. exact Hm.
Qed.

End EmitsOnly.

Lemma emits_only_emit (P : event -> bool) (e : event) :
  P e = true -> emits_only P (emit e).
Proof. intros He p. simpl. rewrite He. reflexivity. Qed.

Lemma emits_only_lift_opt (P : event -> bool) (r : option exn) :
  emits_only P (lift_opt r).
Proof. destruct r; intros p; reflexivity. Qed.

Lemma emits_only_get_cwd (P : event -> bool) : emits_only P get_cwd.
Proof. intros p. reflexivity. Qed.

Lemma emits_only_set_cwd (P : event -> bool) d : emits_only P (set_cwd d).
Proof. intros p. reflexivity. Qed.

Lemma emits_only_weaken {A} (P Q : event -> bool) (m : M A) :
  (forall e, P e = true -> Q e = true) -> emits_only P m -> emits_only Q m.
Proof.
  intros HPQ Hm p. specialize (Hm p).
  rewrite forallb_forall in *. auto.
Qed.

Create HintDb emits.
#[local] Hint Resolve emits_only_ret emits_only_raise emits_only_lift
  emits_only_try emits_only_lift_opt emits_only_get_cwd emits_only_set_cwd
  : emits.

(** Splits a computation along its binds and branches, leaving the events
    to [reflexivity]. *)
Ltac emits :=
  repeat first
    [ apply emits_only_bind; [| intros ? ]
    | apply emits_only_try
    | apply emits_only_emit; reflexivity
    | solve [ auto with emits ]
    | match goal with
      | |- emits_only _ (match ?x with _ => _ end) => destruct x
      | |- emits_only _ (if ?b then _ else _) => destruct b
      end ].

(** ** The file reader *)

Lemma append_assoc (a b c : string) : (a ++ b) ++ c = a ++ (b ++ c).
Proof. induction a as [| x a IH]; simpl; [reflexivity | now rewrite IH]. Qed.

Lemma append_empty_r (a : string) : a ++ "" = a.
Proof. induction a as [| x a IH]; simpl; [reflexivity | now rewrite IH]. Qed.

Lemma read_file_step_run w code_summary file_path p :
  read_file_step w code_summary file_path p =
  (inr (code_summary ++ contribution w (cwd p) file_path), p,
   records w (cwd p) file_path).
Proof.
  unfold read_file_step, contribution, records, header, isfile, open_utf8,
    bind, try, get_cwd, ret, logging, emit. simpl.
  destruct (w_isfile w (cwd p) file_path); simpl.
  - destruct (w_open w (cwd p) file_path) as [fe | [fe | text]]; simpl.
    + destruct fe; simpl; now rewrite append_empty_r.
    + destruct fe; reflexivity.
    + now rewrite append_assoc.
  - now rewrite append_empty_r.
Qed.

Lemma for_each_read_run w file_paths : forall code_summary p,
  for_each (read_file_step w) file_paths code_summary p =
  (inr (code_summary
        ++ String.concat "" (map (contribution w (cwd p)) file_paths)), p,
   flat_map (records w (cwd p)) file_paths).
Proof.
  induction file_paths as [| file_path rest IH]; intros code_summary p.
  - simpl. unfold ret. now rewrite append_empty_r.
  - cbn [for_each].
    rewrite (bind_ok _ _ _ _ _ _ (read_file_step_run w code_summary file_path p)).
    rewrite IH. unfold result, final, trace. cbn [fst snd map flat_map].
    f_equal. f_equal. f_equal. rewrite append_assoc. f_equal.
    destruct rest as [| next rest']; simpl; [now rewrite append_empty_r |].
    reflexivity.
Qed.

Lemma concat_empty_app (xs ys : list string) :
  String.concat "" (xs ++ ys) = String.concat "" xs ++ String.concat "" ys.
Proof.
  induction xs as [| x xs IH]; [reflexivity |].
  destruct xs as [| x' xs'].
  - simpl. destruct ys; simpl; [now rewrite append_empty_r | reflexivity].
  - change (String.concat "" ((x :: x' :: xs') ++ ys))
      with (x ++ String.concat "" ((x' :: xs') ++ ys)).
    rewrite IH.
    change (String.concat "" (x :: x' :: xs'))
      with (x ++ String.concat "" (x' :: xs')).
    now rewrite append_assoc.
Qed.

Lemma read_files_run w file_paths p :
  read_files_and_generate_summary w file_paths p =
  (inr (String.concat "" (map (contribution w (cwd p)) file_paths)), p,
   flat_map (records w (cwd p)) file_paths).
Proof. unfold read_files_and_generate_summary. now rewrite for_each_read_run. Qed.

(** Where no file fails inside [read()], the summary is the sections of
    the readable files, in input order. *)
Lemma summary_of_readable_files w file_paths p :
  Forall (fun file_path =>
            forall fe, w_isfile w (cwd p) file_path = true ->
                       w_open w (cwd p) file_path <> inr (inl fe)) file_paths ->
  result (read_files_and_generate_summary w file_paths p) =
  inr (String.concat "" (map (readable_section w (cwd p)) file_paths)).
Proof.
  intros Hok. rewrite read_files_run. unfold result. cbn [fst]. do 2 f_equal.
  apply map_ext_in. intros file_path Hin.
  rewrite Forall_forall in Hok. specialize (Hok file_path Hin).
  unfold contribution, readable_section.
  destruct (w_isfile w (cwd p) file_path); [| reflexivity].
  destruct (w_open w (cwd p) file_path) as [fe | [fe | text]]; try reflexivity.
  now destruct (Hok fe eq_refl).
Qed.

(** A regular file that opens and then fails in [read()] leaves its header
    in the summary, whatever the error. *)
Lemma read_failure_leaves_header w file_path p fe :
  w_isfile w (cwd p) file_path = true ->
  w_open w (cwd p) file_path = inr (inl fe) ->
  result (read_files_and_generate_summary w [file_path] p)
  = inr (header file_path).
Proof.
  intros Hfile Hopen. rewrite read_files_run. unfold result. cbn [fst map].
  unfold contribution. now rewrite Hfile, Hopen.
Qed.

(** A file that cannot be opened leaves nothing. *)
Lemma open_failure_leaves_nothing w file_path p fe :
  w_open w (cwd p) file_path = inl fe ->
  result (read_files_and_generate_summary w [file_path] p) = inr "".
Proof.
  intros Hopen. rewrite read_files_run. unfold result. cbn [fst map].
  unfold contribution. rewrite Hopen.
  now destruct (w_isfile w (cwd p) file_path).
Qed.

(** C10: with the file system fixed, the reader is a monoid homomorphism
    from path lists to summaries: it never raises, the summary of
    [xs ++ ys] is the summary of [xs] followed by the summary of [ys] (and
    so are the log records), and the empty list gives the empty string. *)
Theorem read_files_monoid_homomorphism (w : World) (xs ys : list string)
    (p : proc) :
  (exists s1 s2 t1 t2,
     read_files_and_generate_summary w xs p = (inr s1, p, t1) /\
     read_files_and_generate_summary w ys p = (inr s2, p, t2) /\
     read_files_and_generate_summary w (xs ++ ys) p =
     (inr (s1 ++ s2), p, (t1 ++ t2)%list)) /\
  read_files_and_generate_summary w [] p = (inr "", p, []).
Proof.
  split; [| reflexivity].
  exists (String.concat "" (map (contribution w (cwd p)) xs)),
         (String.concat "" (map (contribution w (cwd p)) ys)),
         (flat_map (records w (cwd p)) xs),
         (flat_map (records w (cwd p)) ys).
  rewrite !read_files_run, map_app, concat_empty_app, flat_map_app.
  repeat split.
Qed.

(** C1: the code at a path list holding a file that is not UTF-8.  The
    file opens, the header is appended, and only then [read()] raises: the
    summary names [bad.bin] although the file was skipped, and goes on with
    [ok.py]. *)
Theorem undecodable_file_leaves_its_header :
  w_open Fixtures.binary_file_world "/work" "bad.bin"
  = inr (inl (DecodeError
      "'utf-8' codec can't decode byte 0xff in position 0: invalid start byte"))
  /\ exists summary,
       result (read_files_and_generate_summary Fixtures.binary_file_world
                 ["bad.bin"; "ok.py"] Fixtures.here) = inr summary
       /\ summary = nl ++ nl ++ "File: bad.bin" ++ nl
                    ++ nl ++ nl ++ "File: ok.py" ++ nl ++ "x=1"
       /\ contains "File: bad.bin" summary = true.
Proof.
  split; [reflexivity |]. eexists. split; [reflexivity |].
  split; reflexivity.
Qed.

(** C2: the code at a path list in which no file is readable as UTF-8
    text.  The summary is not empty: it is the header of the file whose
    [read()] failed. *)
Theorem summary_not_empty_without_readable_file :
  readable_section Fixtures.binary_file_world "/work" "bad.bin" = ""
  /\ read_files_and_generate_summary Fixtures.binary_file_world ["bad.bin"]
       Fixtures.here
     = (inr (nl ++ nl ++ "File: bad.bin" ++ nl), Fixtures.here,
        [EvLog LvInfo (LStr "Reading %s") [LStr "bad.bin"];
         EvLog LvWarning (LStr "Skipping file %s: %s")
           [LStr "bad.bin";
            LExn (UnicodeDecodeError
              "'utf-8' codec can't decode byte 0xff in position 0: invalid start byte")]]).
Proof. split; reflexivity. Qed.

(** ** Which part of the code talks to whom *)

Section Channels.
Variable w : World.

Lemma read_files_emit_logs file_paths :
  emits_only is_log (read_files_and_generate_summary w file_paths).
Proof.
  intros p. rewrite read_files_run. unfold trace. cbn [snd].
  induction file_paths as [| file_path rest IH]; [reflexivity |].
  cbn [flat_map]. rewrite forallb_app, IH, andb_true_r.
  unfold records. destruct (w_isfile w (cwd p) file_path); [| reflexivity].
  destruct (w_open w (cwd p) file_path) as [fe | [fe | text]]; reflexivity.
Qed.

Lemma scan_code_emits_backend_calls client code_summary :
  emits_only is_backend_call (scan_code w client code_summary).
Proof.
  destruct client; unfold scan_code, OpenAIClient_scan_code,
    GoogleClient_scan_code, GroqClient_scan_code, CustomAIClient_scan_code,
    OpenAIClient_exchange, GoogleClient_exchange, GroqClient_exchange,
    CustomAIClient_exchange, except_Exception, first_choice, chat_create,
    generate_content, post; emits.
Qed.

Lemma is_git_repo_emits directory :
  emits_only (fun e => is_log e || is_local_git e) (is_git_repo w directory).
Proof. unfold is_git_repo, check_output, logging. emits. Qed.

Lemma get_changed_files_emits directory :
  emits_only (fun e => is_log e || is_local_git e) (get_changed_files w directory).
Proof. unfold get_changed_files, chdir, check_output, logging. emits. Qed.

Lemma fetch_from_repo_emits directory :
  emits_only (fun e => is_log e || is_local_git e)
    (fetch_changed_files_from_repo w directory).
Proof.
  unfold fetch_changed_files_from_repo, logging.
  apply emits_only_bind; [apply is_git_repo_emits |].
  intros valid. destruct valid; cbn [negb]; [apply get_changed_files_emits |].
  emits.
Qed.

Lemma fetch_from_pr_emits repo pr_number github_token :
  emits_only (fun e => is_log e || is_github_call e)
    (fetch_changed_files_from_pr w repo pr_number github_token).
Proof.
  unfold fetch_changed_files_from_pr, get_pr_changed_files, logging. emits.
Qed.

Lemma resolve_emits directory repo pr_number github_token :
  emits_only (fun e => negb (is_backend_call e))
    (resolve w directory repo pr_number github_token).
Proof.
  unfold resolve. destruct (truthy repo && truthy pr_number).
  - eapply emits_only_weaken; [| apply fetch_from_pr_emits].
    intros [] He; try reflexivity; discriminate He.
  - eapply emits_only_weaken; [| apply fetch_from_repo_emits].
    intros [] He; try reflexivity; discriminate He.
Qed.

(** The rest of [scan_changes], once the changed files are resolved, only
    logs and calls the backend. *)
Lemma scan_changes_emits (P : event -> bool) directory client repo pr_number
    github_token :
  (forall e, is_log e = true -> P e = true) ->
  (forall e, is_backend_call e = true -> P e = true) ->
  emits_only P (resolve w directory repo pr_number github_token) ->
  emits_only P (scan_changes w directory client repo pr_number github_token).
Proof.
  intros Hlog Hbackend Hresolve. unfold scan_changes, generate_code_summary, logging.
  apply emits_only_bind; [now apply emits_only_try |].
  intros [e | [| changed rest]].
  - destruct (is_ValueError e); [| emits].
    apply emits_only_bind; [| intros ?; emits].
    apply emits_only_emit, Hlog. reflexivity.
  - apply emits_only_bind; [| intros ?; emits].
    apply emits_only_emit, Hlog. reflexivity.
  - apply emits_only_bind.
    + eapply emits_only_weaken; [exact Hlog | apply read_files_emit_logs].
    + intros code_summary.
      eapply emits_only_weaken; [exact Hbackend |].
      apply scan_code_emits_backend_calls.
Qed.

End Channels.

(** ** The repository check *)

Lemma is_git_repo_run w directory p :
  is_git_repo w directory p =
  match w_check_output w (cwd p) (rev_parse directory) with
  | inr _ => (inr true, p, [EvSubprocess (cwd p) (rev_parse directory)])
  | inl e =>
      if is_CalledProcessError e
      then (inr false, p,
            [EvSubprocess (cwd p) (rev_parse directory);
             EvLog LvError (LStr "Directory is not a valid Git repository: %s")
               [LStr directory]])
      else (inl e, p, [EvSubprocess (cwd p) (rev_parse directory)])
  end.
Proof.
  unfold is_git_repo, check_output, rev_parse, bind, try, get_cwd, emit, lift,
    logging. simpl.
  destruct (w_check_output w (cwd p) _) as [e | out]; simpl; [| reflexivity].
  destruct (is_CalledProcessError e); reflexivity.
Qed.

(** C5, as stated, at a machine without [git]: the invocation cannot run,
    [check_output] raises [OSError], and [is_git_repo] raises it too
    instead of returning false. *)
Lemma is_git_repo_can_raise :
  ~ (forall (w : World) (directory : string) (p : proc) (e : exn),
       w_check_output w (cwd p) (rev_parse directory) = inl e ->
       result (is_git_repo w directory p) = inr false).
Proof.
  intros Hclaim.
  specialize (Hclaim Fixtures.no_git_world "." Fixtures.here
                (OSError "[Errno 2] No such file or directory: 'git'") eq_refl).
  discriminate Hclaim.
Qed.

(** C5, amended: [is_git_repo] runs the rev-parse check once.  When the
    check fails with [CalledProcessError] (git ran and exited non-zero, as
    for a directory that is no repository) it logs the error
    "Directory is not a valid Git repository: {directory}" and returns
    false; when the check succeeds it returns true and logs nothing; any
    other exception of the check (such as the [OSError] of a missing
    executable) is raised unchanged, and nothing is logged. *)
Theorem is_git_repo_false_on_called_process_error (w : World)
    (directory : string) (p : proc) :
  (forall e, w_check_output w (cwd p) (rev_parse directory) = inl e ->
             is_CalledProcessError e = true ->
             is_git_repo w directory p =
             (inr false, p,
              [EvSubprocess (cwd p) (rev_parse directory);
               EvLog LvError
                 (LStr "Directory is not a valid Git repository: %s")
                 [LStr directory]])) /\
  (forall e, w_check_output w (cwd p) (rev_parse directory) = inl e ->
             is_CalledProcessError e = false ->
             is_git_repo w directory p =
             (inl e, p, [EvSubprocess (cwd p) (rev_parse directory)])) /\
  (forall out, w_check_output w (cwd p) (rev_parse directory) = inr out ->
               is_git_repo w directory p =
               (inr true, p, [EvSubprocess (cwd p) (rev_parse directory)])).
Proof.
  rewrite is_git_repo_run. repeat split.
  - intros e Hrun He. now rewrite Hrun, He.
  - intros e Hrun He. now rewrite Hrun, He.
  - intros out Hrun. now rewrite Hrun.
Qed.

Lemma is_git_repo_false_on_called_process_error_witness :
  is_git_repo Fixtures.not_a_repo_world "/tmp/x" Fixtures.here
  = (inr false, Fixtures.here,
     [EvSubprocess "/work" (rev_parse "/tmp/x");
      EvLog LvError (LStr "Directory is not a valid Git repository: %s")
        [LStr "/tmp/x"]])
  /\ is_git_repo Fixtures.no_git_world "/tmp/x" Fixtures.here
     = (inl (OSError "[Errno 2] No such file or directory: 'git'"),
        Fixtures.here, [EvSubprocess "/work" (rev_parse "/tmp/x")])
  /\ is_git_repo Fixtures.quiet "/tmp/x" Fixtures.here
     = (inr true, Fixtures.here, [EvSubprocess "/work" (rev_parse "/tmp/x")]).
Proof.
  split; [| split].
  - apply (proj1 (is_git_repo_false_on_called_process_error
                    Fixtures.not_a_repo_world "/tmp/x" Fixtures.here)
             (CalledProcessError
                "Command 'git' returned non-zero exit status 128."));
      reflexivity.
  - apply (proj1 (proj2 (is_git_repo_false_on_called_process_error
                           Fixtures.no_git_world "/tmp/x" Fixtures.here)));
      reflexivity.
  - apply (proj2 (proj2 (is_git_repo_false_on_called_process_error
                           Fixtures.quiet "/tmp/x" Fixtures.here)) "");
      reflexivity.
Defined.

(** ** scan_changes *)

(** C6: a call with a truthy repository and pull-request number and no
    access token returns the credential error as text.  The text contains
    "GitHub token is required", and the run emits two log records and
    nothing else: no GitHub call, no subprocess, no backend call. *)
Theorem scan_changes_without_token (w : World) (directory : string)
    (client : ai_client) (repo pr_number github_token : value) (p : proc) :
  truthy repo = true ->
  truthy pr_number = true ->
  truthy github_token = false ->
  exists text,
    scan_changes w directory client repo pr_number github_token p =
    (inr (PyStr text), p,
     [EvLog LvError
        (LStr "GitHub token is required for scanning PR changes.") [];
      EvLog LvError
        (LExn (ValueError "GitHub token is required for scanning PR changes."))
        []]) /\
    contains "GitHub token is required" text = true.
Proof.
  intros Hrepo Hpr Htoken.
  exists "GitHub token is required for scanning PR changes.".
  split; [| reflexivity].
  unfold scan_changes, resolve, fetch_changed_files_from_pr.
  rewrite Hrepo, Hpr, Htoken. reflexivity.
Qed.

Lemma scan_changes_without_token_witness :
  exists text,
    scan_changes Fixtures.quiet "." (OpenAIClient Fixtures.a_hosted_client)
      (VStr "owner/repo") (VInt 7) VNone Fixtures.here =
    (inr (PyStr text), Fixtures.here,
     [EvLog LvError
        (LStr "GitHub token is required for scanning PR changes.") [];
      EvLog LvError
        (LExn (ValueError "GitHub token is required for scanning PR changes."))
        []]) /\
    contains "GitHub token is required" text = true.
Proof.
  apply (scan_changes_without_token Fixtures.quiet "."
           (OpenAIClient Fixtures.a_hosted_client)
           (VStr "owner/repo") (VInt 7) VNone Fixtures.here);
    reflexivity.
Defined.

(** C7, as stated, at a machine without [git], where no directory can be
    checked: the rev-parse check raises [OSError], which neither
    [is_git_repo] nor [scan_changes] catches, and [scan_changes] raises
    instead of returning the text. *)
Lemma scan_changes_raises_when_check_cannot_run :
  ~ (forall (w : World) (directory : string) (client : ai_client)
            (github_token : value) (p : proc) (e : exn),
       w_check_output w (cwd p) (rev_parse directory) = inl e ->
       result (scan_changes w directory client VNone VNone github_token p)
       = inr (PyStr "Directory is not a valid Git repository.")).
Proof.
  intros Hclaim.
  specialize (Hclaim Fixtures.no_git_world "/tmp/x"
                (OpenAIClient Fixtures.a_hosted_client) VNone Fixtures.here
                (OSError "[Errno 2] No such file or directory: 'git'")
                eq_refl).
  discriminate Hclaim.
Qed.

(** C7, amended: without repository and pull-request parameters, on a
    directory whose rev-parse check fails with [CalledProcessError] (git
    ran and exited non-zero), [scan_changes] returns exactly
    "Directory is not a valid Git repository."; the run is the check and
    three error records, so no backend is called.  When the check raises
    another exception, [scan_changes] raises it right after the check (a
    [ValueError] is returned as its message); no backend is called
    either. *)
Theorem scan_changes_not_a_repository (w : World) (directory : string)
    (client : ai_client) (github_token : value) (p : proc) :
  (forall e, w_check_output w (cwd p) (rev_parse directory) = inl e ->
             is_CalledProcessError e = true ->
             scan_changes w directory client VNone VNone github_token p =
             (inr (PyStr "Directory is not a valid Git repository."), p,
              [EvSubprocess (cwd p) (rev_parse directory);
               EvLog LvError
                 (LStr "Directory is not a valid Git repository: %s")
                 [LStr directory];
               EvLog LvError
                 (LStr "Directory is not a valid Git repository: %s")
                 [LStr directory];
               EvLog LvError
                 (LExn (ValueError "Directory is not a valid Git repository."))
                 []])) /\
  (forall e, w_check_output w (cwd p) (rev_parse directory) = inl e ->
             is_CalledProcessError e = false ->
             scan_changes w directory client VNone VNone github_token p =
             (if is_ValueError e
              then (inr (PyStr (exn_str e)), p,
                    [EvSubprocess (cwd p) (rev_parse directory);
                     EvLog LvError (LExn e) []])
              else (inl e, p, [EvSubprocess (cwd p) (rev_parse directory)]))).
Proof.
  split; intros e Hcheck Hclass;
    unfold scan_changes, resolve, fetch_changed_files_from_repo;
    cbn [truthy andb]; unfold bind at 1, try, bind at 1;
    rewrite is_git_repo_run, Hcheck, Hclass.
  - reflexivity.
  - destruct (is_ValueError e); reflexivity.
Qed.

Lemma scan_changes_not_a_repository_witness :
  scan_changes Fixtures.not_a_repo_world "/tmp/x"
    (OpenAIClient Fixtures.a_hosted_client) VNone VNone VNone Fixtures.here =
  (inr (PyStr "Directory is not a valid Git repository."), Fixtures.here,
   [EvSubprocess "/work" (rev_parse "/tmp/x");
    EvLog LvError (LStr "Directory is not a valid Git repository: %s")
      [LStr "/tmp/x"];
    EvLog LvError (LStr "Directory is not a valid Git repository: %s")
      [LStr "/tmp/x"];
    EvLog LvError
      (LExn (ValueError "Directory is not a valid Git repository.")) []])
  /\ scan_changes Fixtures.no_git_world "/tmp/x"
       (OpenAIClient Fixtures.a_hosted_client) VNone VNone VNone Fixtures.here
     = (inl (OSError "[Errno 2] No such file or directory: 'git'"),
        Fixtures.here, [EvSubprocess "/work" (rev_parse "/tmp/x")]).
Proof.
  split.
  - apply (proj1 (scan_changes_not_a_repository Fixtures.not_a_repo_world
                    "/tmp/x" (OpenAIClient Fixtures.a_hosted_client) VNone
                    Fixtures.here)
             (CalledProcessError
                "Command 'git' returned non-zero exit status 128."));
      reflexivity.
  - apply (proj2 (scan_changes_not_a_repository Fixtures.no_git_world
                    "/tmp/x" (OpenAIClient Fixtures.a_hosted_client) VNone
                    Fixtures.here)
             (OSError "[Errno 2] No such file or directory: 'git'"));
      reflexivity.
Defined.

(** C8: when the changed files are resolved and there are none,
    [scan_changes] returns exactly "No changes detected in the directory."
    and no backend is called. *)
Theorem scan_changes_no_changes (w : World) (directory : string)
    (client : ai_client) (repo pr_number github_token : value)
    (p p' : proc) (t : list event) :
  resolve w directory repo pr_number github_token p = (inr [], p', t) ->
  scan_changes w directory client repo pr_number github_token p =
  (inr (PyStr "No changes detected in the directory."), p',
   (t ++ [EvLog LvInfo (LStr "No changes detected in the directory.") []])%list)
  /\ forallb (fun e => negb (is_backend_call e))
       (trace (scan_changes w directory client repo pr_number github_token p))
     = true.
Proof.
  intros Hresolve.
  assert (Hrun : scan_changes w directory client repo pr_number github_token p =
    (inr (PyStr "No changes detected in the directory."), p',
     (t ++ [EvLog LvInfo (LStr "No changes detected in the directory.") []])%list)).
  { unfold scan_changes, bind at 1, try. rewrite Hresolve. reflexivity. }
  split; [exact Hrun |].
  rewrite Hrun. unfold trace. cbn [snd].
  pose proof (resolve_emits w directory repo pr_number github_token p) as Ht.
  rewrite Hresolve in Ht. unfold trace in Ht. cbn [snd] in Ht.
  rewrite forallb_app, Ht. reflexivity.
Qed.

Lemma scan_changes_no_changes_witness :
  scan_changes Fixtures.quiet "/repo" (OpenAIClient Fixtures.a_hosted_client)
    VNone VNone VNone Fixtures.here =
  (inr (PyStr "No changes detected in the directory."), {| cwd := "/repo" |},
   ([EvSubprocess "/work" (rev_parse "/repo"); EvChdir "/repo";
     EvSubprocess "/repo" ["git"; "diff"; "--name-only"]]
    ++ [EvLog LvInfo (LStr "No changes detected in the directory.") []])%list)
  /\ forallb (fun e => negb (is_backend_call e))
       (trace (scan_changes Fixtures.quiet "/repo"
                 (OpenAIClient Fixtures.a_hosted_client)
                 VNone VNone VNone Fixtures.here))
     = true.
Proof.
  apply (scan_changes_no_changes Fixtures.quiet "/repo"
           (OpenAIClient Fixtures.a_hosted_client) VNone VNone VNone
           Fixtures.here {| cwd := "/repo" |}).
  reflexivity.
Defined.

(** The run of [scan_changes], by what the resolver gave. *)
Lemma scan_changes_run w directory client repo pr_number github_token p :
  scan_changes w directory client repo pr_number github_token p =
  match resolve w directory repo pr_number github_token p with
  | (inl e, p', t) =>
      if is_ValueError e
      then (inr (PyStr (exn_str e)), p',
            (t ++ [EvLog LvError (LExn e) []])%list)
      else (inl e, p', t)
  | (inr [], p', t) =>
      (inr (PyStr "No changes detected in the directory."), p',
       (t ++ [EvLog LvInfo (LStr "No changes detected in the directory.") []])%list)
  | (inr (file :: files), p', t) =>
      let summary :=
        String.concat ""
          (map (contribution w (cwd p'))
             (map (path_join directory) (file :: files))) in
      (result (scan_code w client summary p'),
       final (scan_code w client summary p'),
       (t ++ flat_map (records w (cwd p'))
               (map (path_join directory) (file :: files))
          ++ trace (scan_code w client summary p'))%list)
  end.
Proof.
  unfold scan_changes. unfold bind at 1, try.
  destruct (resolve w directory repo pr_number github_token p)
    as [[[e | [| file files]] p'] t].
  - destruct (is_ValueError e); simpl; rewrite ?app_nil_r; reflexivity.
  - reflexivity.
  - unfold generate_code_summary.
    rewrite (bind_ok _ _ _ _ _ _ (read_files_run w _ p')).
    reflexivity.
Qed.

(** C9: the strategy is chosen by the truthiness of [repo] and
    [pr_number].  With an empty or absent [repo], or a [pr_number] that is
    0 or [None], [scan_changes] runs [fetch_changed_files_from_repo] on
    the directory and goes on from its outcome: the run is that of a call
    without these parameters, and GitHub is never called.  Only with a
    non-empty [repo] and a non-zero [pr_number] does it run
    [fetch_changed_files_from_pr] on the repository, the number and the
    token and go on from its outcome, and then no git subprocess runs.
    Going on means: a [ValueError] of the resolver is logged and returned
    as its message and any other exception raised; the empty list gives
    "No changes detected in the directory."; otherwise the changed files
    are read under the directory and the summary goes to the backend. *)
Theorem strategy_selected_by_truthiness (w : World) (directory : string)
    (client : ai_client) (repo pr_number github_token : value) (p : proc) :
  (repo = VStr "" \/ repo = VNone \/ pr_number = VInt 0 \/ pr_number = VNone ->
   scan_changes w directory client repo pr_number github_token p
   = match fetch_changed_files_from_repo w directory p with
     | (inl e, p', t) =>
         if is_ValueError e
         then (inr (PyStr (exn_str e)), p',
               (t ++ [EvLog LvError (LExn e) []])%list)
         else (inl e, p', t)
     | (inr [], p', t) =>
         (inr (PyStr "No changes detected in the directory."), p',
          (t ++ [EvLog LvInfo
                   (LStr "No changes detected in the directory.") []])%list)
     | (inr (file :: files), p', t) =>
         let summary :=
           String.concat ""
             (map (contribution w (cwd p'))
                (map (path_join directory) (file :: files))) in
         (result (scan_code w client summary p'),
          final (scan_code w client summary p'),
          (t ++ flat_map (records w (cwd p'))
                  (map (path_join directory) (file :: files))
             ++ trace (scan_code w client summary p'))%list)
     end /\
   resolve w directory repo pr_number github_token
   = fetch_changed_files_from_repo w directory /\
   scan_changes w directory client repo pr_number github_token p
   = scan_changes w directory client VNone VNone VNone p /\
   forallb (fun e => negb (is_github_call e))
     (trace (scan_changes w directory client repo pr_number github_token p))
   = true) /\
  (forall r n, repo = VStr r -> r <> "" -> pr_number = VInt n -> n <> 0%Z ->
   scan_changes w directory client repo pr_number github_token p
   = match fetch_changed_files_from_pr w repo pr_number github_token p with
     | (inl e, p', t) =>
         if is_ValueError e
         then (inr (PyStr (exn_str e)), p',
               (t ++ [EvLog LvError (LExn e) []])%list)
         else (inl e, p', t)
     | (inr [], p', t) =>
         (inr (PyStr "No changes detected in the directory."), p',
          (t ++ [EvLog LvInfo
                   (LStr "No changes detected in the directory.") []])%list)
     | (inr (file :: files), p', t) =>
         let summary :=
           String.concat ""
             (map (contribution w (cwd p'))
                (map (path_join directory) (file :: files))) in
         (result (scan_code w client summary p'),
          final (scan_code w client summary p'),
          (t ++ flat_map (records w (cwd p'))
                  (map (path_join directory) (file :: files))
             ++ trace (scan_code w client summary p'))%list)
     end /\
   resolve w directory repo pr_number github_token
   = fetch_changed_files_from_pr w repo pr_number github_token /\
   forallb (fun e => negb (is_local_git e))
     (trace (scan_changes w directory client repo pr_number github_token p))
   = true).
Proof.
  split.
  - intros Hfalsy.
    assert (Hsel : truthy repo && truthy pr_number = false).
    { destruct Hfalsy as [-> | [-> | [-> | ->]]]; cbn [truthy];
        try reflexivity; apply andb_false_r. }
    assert (Hlocal : resolve w directory repo pr_number github_token
                     = fetch_changed_files_from_repo w directory).
    { unfold resolve. now rewrite Hsel. }
    split; [rewrite scan_changes_run, Hlocal; reflexivity |].
    split; [exact Hlocal |]. split.
    + unfold scan_changes. rewrite Hlocal. reflexivity.
    + apply scan_changes_emits.
      * intros [] He; try reflexivity; discriminate He.
      * intros [] He; try reflexivity; discriminate He.
      * rewrite Hlocal. eapply emits_only_weaken;
          [| apply fetch_from_repo_emits].
        intros [] He; try reflexivity; discriminate He.
  - intros r n -> Hr -> Hn.
    assert (Hsel : truthy (VStr r) && truthy (VInt n) = true).
    { cbn [truthy]. apply String.eqb_neq in Hr. apply Z.eqb_neq in Hn.
      now rewrite Hr, Hn. }
    assert (Hremote : resolve w directory (VStr r) (VInt n) github_token
                      = fetch_changed_files_from_pr w (VStr r) (VInt n)
                          github_token).
    { unfold resolve. now rewrite Hsel. }
    split; [rewrite scan_changes_run, Hremote; reflexivity |].
    split; [exact Hremote |].
    apply scan_changes_emits.
    + intros [] He; try reflexivity; discriminate He.
    + intros [] He; try reflexivity; discriminate He.
    + rewrite Hremote. eapply emits_only_weaken;
        [| apply fetch_from_pr_emits].
      intros [] He; try reflexivity; discriminate He.
Qed.

Lemma strategy_selected_by_truthiness_witness :
  scan_changes Fixtures.two_changes_world "/some/repo"
    (OpenAIClient Fixtures.a_hosted_client) (VStr "") (VInt 7) (VStr "t")
    Fixtures.here
  = (inr (PyStr "Scan result"), {| cwd := "/some/repo" |},
     [EvSubprocess "/work" (rev_parse "/some/repo");
      EvChdir "/some/repo";
      EvSubprocess "/some/repo" ["git"; "diff"; "--name-only"];
      EvLog LvInfo (LStr "Found %d changed files in local repository")
        [LNat 2];
      EvLog LvInfo (LStr "Reading %s") [LStr "/some/repo/file1.py"];
      EvLog LvInfo (LStr "Reading %s") [LStr "/some/repo/file2.py"];
      EvChatCreate OpenAI "key" "gpt-4o-mini"
        [("system", OpenAI_system_prompt);
         ("user",
          nl ++ nl ++ "File: file1.py" ++ nl ++ "sample code"
          ++ nl ++ nl ++ "File: file2.py" ++ nl ++ "sample code")]])
  /\ scan_changes Fixtures.quiet "/repo"
       (OpenAIClient Fixtures.a_hosted_client)
       (VStr "owner/repo") (VInt 7) (VStr "t") Fixtures.here
     = (inr (PyStr "No changes detected in the directory."), Fixtures.here,
        [EvGetRepo (VStr "t") (VStr "owner/repo");
         EvGetPull (VStr "t") (VStr "owner/repo") (VInt 7);
         EvGetFiles (VStr "t") (VStr "owner/repo") (VInt 7);
         EvLog LvInfo
           (LStr "Fetched %d changed files from PR #%d in repo %s")
           [LNat 0; LVal (VInt 7); LVal (VStr "owner/repo")];
         EvLog LvInfo (LStr "No changes detected in the directory.") []]).
Proof.
  split.
  - exact (proj1 (proj1 (strategy_selected_by_truthiness
                           Fixtures.two_changes_world "/some/repo"
                           (OpenAIClient Fixtures.a_hosted_client)
                           (VStr "") (VInt 7) (VStr "t") Fixtures.here)
                    (or_introl eq_refl))).
  - refine (proj1 (proj2 (strategy_selected_by_truthiness Fixtures.quiet
                            "/repo" (OpenAIClient Fixtures.a_hosted_client)
                            (VStr "owner/repo") (VInt 7) (VStr "t")
                            Fixtures.here)
                     "owner/repo" 7%Z eq_refl _ eq_refl _));
      [discriminate | lia].
Defined.

(** ** The backends *)

Lemma scan_code_hosted_run w client code_summary p :
  is_hosted client = true ->
  scan_code w client code_summary p =
  (inr (match result (exchange w client code_summary p) with
        | inr v => v
        | inl e => PyStr ("Error occurred: " ++ exn_str e)
        end),
   final (exchange w client code_summary p),
   trace (exchange w client code_summary p)).
Proof.
  intros Hhosted.
  destruct client as [c | c | c | c]; [| | | discriminate Hhosted];
    unfold scan_code, exchange, OpenAIClient_scan_code, GoogleClient_scan_code,
      GroqClient_scan_code, except_Exception, bind at 1, try, result, final,
      trace.
  - destruct (OpenAIClient_exchange w c code_summary p) as [[[e | v] p'] t];
      simpl; now rewrite app_nil_r.
  - destruct (GoogleClient_exchange w c code_summary p) as [[[e | v] p'] t];
      simpl; now rewrite app_nil_r.
  - destruct (GroqClient_exchange w c code_summary p) as [[[e | v] p'] t];
      simpl; now rewrite app_nil_r.
Qed.

Lemma scan_code_custom_run w c code_summary p :
  scan_code w (CustomAIClient c) code_summary p =
  (match result (CustomAIClient_exchange w c code_summary p) with
   | inr v => inr v
   | inl e =>
       if is_RequestException e
       then inr (PyStr ("Error occurred while connecting to the server: "
                        ++ exn_str e))
       else inl e
   end,
   final (CustomAIClient_exchange w c code_summary p),
   trace (CustomAIClient_exchange w c code_summary p)).
Proof.
  unfold scan_code, CustomAIClient_scan_code, bind at 1, try, result, final,
    trace.
  destruct (CustomAIClient_exchange w c code_summary p) as [[[e | v] p'] t];
    simpl; [| now rewrite app_nil_r].
  destruct (is_RequestException e); simpl; now rewrite app_nil_r.
Qed.

(** C3, as stated, at a server that answers 200 with the JSON body
    [{"message": "ok"}]: the custom variant calls [.get] on the string and
    the [AttributeError] leaves [scan_code]. *)
Lemma custom_scan_code_can_raise :
  ~ (forall (w : World) (client : ai_client) (code_summary : string) (p : proc),
       exists v, result (scan_code w client code_summary p) = inr v).
Proof.
  intros Hclaim.
  destruct (Hclaim Fixtures.flat_message_world
              (CustomAIClient Fixtures.a_custom_client) "x=1" Fixtures.here)
    as [v Hv].
  discriminate Hv.
Qed.

(** C3, amended: a hosted variant never raises, and an exception raised in
    its exchange with the provider comes back as the text
    "Error occurred: {message}".  The custom HTTP variant turns a
    [RequestException] raised in its exchange with the server into the text
    "Error occurred while connecting to the server: {message}"; an
    exception of another class leaves [scan_code]. *)
Theorem scan_code_error_texts (w : World) (client : ai_client)
    (code_summary : string) (p : proc) :
  (is_hosted client = true ->
   (exists v, result (scan_code w client code_summary p) = inr v) /\
   (forall e, result (exchange w client code_summary p) = inl e ->
      result (scan_code w client code_summary p)
      = inr (PyStr ("Error occurred: " ++ exn_str e)))) /\
  (is_hosted client = false ->
   forall e, result (exchange w client code_summary p) = inl e ->
     (is_RequestException e = true ->
      result (scan_code w client code_summary p)
      = inr (PyStr ("Error occurred while connecting to the server: "
                    ++ exn_str e))) /\
     (is_RequestException e = false ->
      result (scan_code w client code_summary p) = inl e)).
Proof.
  split.
  - intros Hhosted. rewrite (scan_code_hosted_run _ _ _ _ Hhosted).
    split; [eexists; reflexivity |].
    intros e He. change (result ?x) with (fst (fst x)) at 1. cbn [fst].
    now rewrite He.
  - intros Hcustom e He.
    destruct client as [c | c | c | c]; try discriminate Hcustom.
    rewrite scan_code_custom_run. unfold exchange in He.
    change (result (?a, ?b, ?c)) with a. rewrite He.
    split; intros Hclass; now rewrite Hclass.
Qed.

Lemma scan_code_error_texts_witness :
  ((exists v,
      result (scan_code Fixtures.failing_provider_world
                (OpenAIClient Fixtures.a_hosted_client) "x=1" Fixtures.here)
      = inr v) /\
   result (scan_code Fixtures.failing_provider_world
             (OpenAIClient Fixtures.a_hosted_client) "x=1" Fixtures.here)
   = inr (PyStr "Error occurred: boom")) /\
  result (scan_code Fixtures.unreachable_world
            (CustomAIClient Fixtures.a_custom_client) "x=1" Fixtures.here)
  = inr (PyStr
      "Error occurred while connecting to the server: Connection refused") /\
  result (scan_code Fixtures.flat_message_world
            (CustomAIClient Fixtures.a_custom_client) "x=1" Fixtures.here)
  = inl (AttributeError "'str' object has no attribute 'get'").
Proof.
  split; [| split].
  - destruct (proj1 (scan_code_error_texts Fixtures.failing_provider_world
                       (OpenAIClient Fixtures.a_hosted_client) "x=1"
                       Fixtures.here) eq_refl) as [Htotal Htext].
    split; [exact Htotal |].
    apply (Htext (OtherError "APIError" "boom")). reflexivity.
  - apply (proj1 (proj2 (scan_code_error_texts Fixtures.unreachable_world
                           (CustomAIClient Fixtures.a_custom_client) "x=1"
                           Fixtures.here) eq_refl
                    (RequestException "Connection refused") eq_refl)).
    reflexivity.
  - apply (proj2 (proj2 (scan_code_error_texts Fixtures.flat_message_world
                           (CustomAIClient Fixtures.a_custom_client) "x=1"
                           Fixtures.here) eq_refl
                    (AttributeError "'str' object has no attribute 'get'")
                    eq_refl)).
    reflexivity.
Defined.

Lemma custom_exchange_run w model host port token endpoint code_summary p :
  CustomAIClient_exchange w
    (CustomAIClient_init model host port token endpoint) code_summary p =
  (match w_post w (custom_request model host port token endpoint code_summary)
   with
   | inl e => inl e
   | inr response =>
       match resp_raise_for_status response with
       | Some e => inl e
       | None =>
           match resp_json response with
           | inl e => inl e
           | inr body =>
               match get body "message" (PyDict []) with
               | inl e => inl e
               | inr message =>
                   get message "content" (PyStr "No response content.")
               end
           end
       end
   end, p,
   [EvPost (custom_request model host port token endpoint code_summary)]).
Proof.
  unfold CustomAIClient_exchange, post, custom_headers, custom_payload,
    CustomAIClient_init, custom_request. cbn [base_url Clients.token custom_model].
  unfold bind, emit, lift, lift_opt, ret, raise.
  destruct (w_post w _) as [e | response]; [reflexivity |].
  destruct (resp_raise_for_status response) as [e |]; [reflexivity |].
  destruct (resp_json response) as [e | body]; [reflexivity |].
  destruct (get body "message" (PyDict [])) as [e | message]; [reflexivity |].
  destruct (get message "content" (PyStr "No response content."));
    reflexivity.
Qed.

(** C4, as stated, at a client built without a token: the request still
    carries an [Authorization] header, with the empty string as value. *)
Lemma authorization_header_sent_without_token :
  ~ (forall (w : World) (model host port token endpoint : value)
            (code_summary : string) (p : proc) (req : http_request),
       truthy token = false ->
       In (EvPost req)
          (trace (scan_code w
                    (CustomAIClient
                       (CustomAIClient_init model host port token endpoint))
                    code_summary p)) ->
       header_value "Authorization" (req_headers req) = None).
Proof.
  intros Hclaim.
  specialize (Hclaim Fixtures.quiet (VStr "m") (VStr "http://localhost")
                (VInt 8000) VNone (VStr "/api/v1/scan") "x=1" Fixtures.here
                (custom_request (VStr "m") (VStr "http://localhost")
                   (VInt 8000) VNone (VStr "/api/v1/scan") "x=1")
                eq_refl (or_introl eq_refl)).
  discriminate Hclaim.
Qed.

(** C4, amended: [CustomAIClient.scan_code] sends exactly one HTTP POST, to
    [{host}:{port}{endpoint}], with the JSON payload
    [{"model": model, "messages": [{"role": "user", "content": text}]}]
    and a timeout of 120.  The request always carries an [Authorization]
    header: its value is [Bearer {token}] when a token is configured and
    the empty string when none is.  When the server answers with a JSON
    object, the result is its [message.content]; it is
    "No response content." when the object has no [message], or when
    [message] is an object without [content]. *)
Theorem custom_scan_code_wire_format (w : World)
    (model host port token endpoint : value) (code_summary : string)
    (p : proc) :
  let client :=
    CustomAIClient (CustomAIClient_init model host port token endpoint) in
  let req := custom_request model host port token endpoint code_summary in
  trace (scan_code w client code_summary p) = [EvPost req] /\
  req_url req = str host ++ ":" ++ str port ++ str endpoint /\
  header_value "Authorization" (req_headers req)
  = Some (if truthy token then "Bearer " ++ str token else "") /\
  (forall response entries,
     w_post w req = inr response ->
     resp_raise_for_status response = None ->
     resp_json response = inr (PyDict entries) ->
     (lookup "message" entries = None ->
      result (scan_code w client code_summary p)
      = inr (PyStr "No response content.")) /\
     (forall fields,
        lookup "message" entries = Some (PyDict fields) ->
        result (scan_code w client code_summary p)
        = inr (match lookup "content" fields with
               | Some content => content
               | None => PyStr "No response content."
               end))).
Proof.
  intros client req. subst client req.
  rewrite scan_code_custom_run, custom_exchange_run.
  split; [reflexivity |]. split; [reflexivity |]. split; [reflexivity |].
  intros response entries Hpost Hstatus Hjson.
  unfold result. cbn [fst]. rewrite Hpost, Hstatus, Hjson. cbn [get].
  split.
  - intros Hmessage. rewrite Hmessage. reflexivity.
  - intros fields Hmessage. rewrite Hmessage. reflexivity.
Qed.

Lemma custom_scan_code_wire_format_witness :
  trace (scan_code Fixtures.quiet
           (CustomAIClient Fixtures.a_custom_client) "x=1" Fixtures.here)
  = [EvPost (custom_request (VStr "m") (VStr "http://localhost") (VInt 8000)
               VNone (VStr "/api/v1/scan") "x=1")] /\
  result (scan_code Fixtures.quiet
            (CustomAIClient Fixtures.a_custom_client) "x=1" Fixtures.here)
  = inr (PyStr "No response content.").
Proof.
  pose proof (custom_scan_code_wire_format Fixtures.quiet (VStr "m")
                (VStr "http://localhost") (VInt 8000) VNone
                (VStr "/api/v1/scan") "x=1" Fixtures.here) as H.
  cbv zeta in H. destruct H as [Htrace [_ [_ Hanswer]]].
  split; [exact Htrace |].
  apply (proj1 (Hanswer
                  {| resp_raise_for_status := None;
                     resp_json := inr (PyDict []) |} []
                  eq_refl eq_refl eq_refl)).
  reflexivity.
Defined.

(** The request of the client in the test suite, with a token. *)
Example custom_request_with_token :
  custom_request (VStr "fake_model") (VStr "http://localhost") (VStr "8000")
    (VStr "fake_token") (VStr "/api/v1/scan") "sample code" =
  {| req_url := "http://localhost:8000/api/v1/scan";
     req_json :=
       PyDict [("model", PyStr "fake_model");
               ("messages",
                PyList [PyDict [("role", PyStr "user");
                                ("content",
                                 PyStr (Custom_prompt ++ "sample code"))]])];
     req_headers := [("Authorization", "Bearer fake_token")];
     req_timeout := 120 |}.
Proof. reflexivity. Qed.

(** ** The cases of the test suite, run on the embedding *)

Example basename_of_joined_path :
  basename (path_join (path_join "some" "repo") "file1.py") = "file1.py".
Proof. reflexivity. Qed.

Example path_join_absolute_second : path_join "/repo" "/etc/hosts" = "/etc/hosts".
Proof. reflexivity. Qed.

Example strip_then_split :
  split (ascii_of_nat 10) (strip ("file1.py" ++ nl ++ "file2.py" ++ nl))
  = ["file1.py"; "file2.py"].
Proof. reflexivity. Qed.

Example get_changed_files_two_changes :
  get_changed_files Fixtures.two_changes_world "some/repo" Fixtures.here
  = (inr ["file1.py"; "file2.py"], {| cwd := "some/repo" |},
     [EvChdir "some/repo";
      EvSubprocess "some/repo" ["git"; "diff"; "--name-only"];
      EvLog LvInfo (LStr "Found %d changed files in local repository")
        [LNat 2]]).
Proof. reflexivity. Qed.

Example read_files_two_files :
  result (read_files_and_generate_summary Fixtures.two_changes_world
            ["some/repo/file1.py"; "some/repo/file2.py"] Fixtures.here)
  = inr (nl ++ nl ++ "File: file1.py" ++ nl ++ "sample code"
         ++ nl ++ nl ++ "File: file2.py" ++ nl ++ "sample code").
Proof. reflexivity. Qed.

Example read_files_invalid_file :
  result (read_files_and_generate_summary Fixtures.quiet
            ["some/repo/invalid_file.py"] Fixtures.here) = inr "".
Proof. reflexivity. Qed.

Example read_files_open_raises :
  result (read_files_and_generate_summary Fixtures.open_raises_world
            ["some/repo/file1.py"] Fixtures.here) = inr "".
Proof. reflexivity. Qed.

Example fetch_from_repo_invalid :
  result (fetch_changed_files_from_repo Fixtures.not_a_repo_world
            "invalid/repo" Fixtures.here)
  = inl (ValueError "Directory is not a valid Git repository.").
Proof. reflexivity. Qed.

Example scan_changes_local_two_changes :
  result (scan_changes Fixtures.two_changes_world "/some/repo"
            (OpenAIClient Fixtures.a_hosted_client) VNone VNone VNone
            Fixtures.here)
  = inr (PyStr "Scan result").
Proof. reflexivity. Qed.

Example scan_changes_pr_number_zero_is_local :
  trace (scan_changes Fixtures.quiet "/repo"
           (OpenAIClient Fixtures.a_hosted_client)
           (VStr "owner/repo") (VInt 0) (VStr "t") Fixtures.here)
  = [EvSubprocess "/work" (rev_parse "/repo"); EvChdir "/repo";
     EvSubprocess "/repo" ["git"; "diff"; "--name-only"];
     EvLog LvInfo (LStr "No changes detected in the directory.") []].
Proof. reflexivity. Qed.

Example custom_scan_code_content :
  result (scan_code
            (Fixtures.with_post Fixtures.quiet
               (fun _ =>
                  inr {| resp_raise_for_status := None;
                         resp_json :=
                           inr (PyDict
                                  [("message",
                                    PyDict [("content",
                                             PyStr "Mocked Custom AI response")])])
                      |}))
            (CustomAIClient Fixtures.a_custom_client) "sample code"
            Fixtures.here)
  = inr (PyStr "Mocked Custom AI response").
Proof. reflexivity. Qed.

(** * Further properties *)

(** ** Splitting and stripping *)

Lemma split_not_nil sep s : split sep s <> [].
Proof.
  destruct s as [| c s]; simpl; [discriminate |].
  destruct (Ascii.eqb c sep); [discriminate |].
  destruct (split sep s); discriminate.
Qed.

Lemma split_pieces_without_sep sep s :
  Forall (fun piece => has_char sep piece = false) (split sep s).
Proof.
  induction s as [| c s IH]; simpl.
  - constructor; [reflexivity | constructor].
  - destruct (Ascii.eqb c sep) eqn:Hc.
    + constructor; [reflexivity | exact IH].
    + destruct (split sep s) as [| piece pieces].
      * constructor; [simpl; now rewrite Hc | constructor].
      * inversion IH as [| ? ? Hpiece Hpieces]; subst.
        constructor; [simpl; now rewrite Hc | exact Hpieces].
Qed.

Lemma split_app_sep sep a b :
  split sep (a ++ String sep b) = (split sep a ++ split sep b)%list.
Proof.
  induction a as [| c a IH]; simpl.
  - now rewrite Ascii.eqb_refl.
  - destruct (Ascii.eqb c sep); [now rewrite IH |].
    rewrite IH. destruct (split sep a) as [| piece pieces] eqn:Ha.
    + now destruct (split_not_nil sep a).
    + reflexivity.
Qed.

Lemma last_app_not_nil {A} (l1 l2 : list A) d :
  l2 <> [] -> last (l1 ++ l2) d = last l2 d.
Proof.
  intros Hl2. induction l1 as [| x l1 IH]; [reflexivity |].
  simpl. destruct (l1 ++ l2)%list eqn:Happ; [| exact IH].
  apply app_eq_nil in Happ. now destruct Hl2.
Qed.

Lemma lstrip_starts s :
  lstrip s = "" \/ exists c rest, lstrip s = String c rest /\ isspace c = false.
Proof.
  induction s as [| c s IH]; simpl; [now left |].
  destruct (isspace c) eqn:Hc; [exact IH |].
  right. now exists c, s.
Qed.

Lemma rstrip_cons c s :
  rstrip (String c s) = "" \/ exists rest, rstrip (String c s) = String c rest.
Proof.
  simpl. destruct (rstrip s).
  - destruct (isspace c); [now left | right; now eexists].
  - right. now eexists.
Qed.

Lemma rstrip_ends s : rstrip s = "" \/ ends_nonspace (rstrip s) = true.
Proof.
  induction s as [| c s IH]; simpl; [now left |].
  destruct (rstrip s) as [| c' r].
  - destruct (isspace c) eqn:Hc; [now left |].
    right. simpl. now rewrite Hc.
  - right. destruct IH as [IH | IH]; [discriminate IH | exact IH].
Qed.

(** A stripped text is empty, or begins and ends with a character that is
    no white space. *)
Lemma strip_shape s :
  strip s = "" \/
  (exists c rest, strip s = String c rest /\ isspace c = false) /\
  ends_nonspace (strip s) = true.
Proof.
  unfold strip. destruct (lstrip_starts s) as [-> | [c [rest [-> Hc]]]];
    [now left |].
  destruct (rstrip_ends (String c rest)) as [Hempty | Hends].
  - now left.
  - right. split; [| exact Hends].
    destruct (rstrip_cons c rest) as [Hnil | [r Hr]].
    + rewrite Hnil in Hends. discriminate Hends.
    + now exists c, r.
Qed.

Lemma isspace_newline : isspace (ascii_of_nat 10) = true.
Proof. reflexivity. Qed.

Lemma last_split_nonempty s :
  ends_nonspace s = true -> last (split (ascii_of_nat 10) s) "" <> "".
Proof.
  induction s as [| c s IH]; [discriminate |].
  intros Hends. destruct s as [| c' s'].
  - simpl in *. destruct (Ascii.eqb c (ascii_of_nat 10)) eqn:Hc.
    + apply Ascii.eqb_eq in Hc. subst c. discriminate Hends.
    + discriminate.
  - specialize (IH Hends). remember (String c' s') as s2 eqn:Hs2.
    clear Hs2 Hends. simpl.
    destruct (Ascii.eqb c (ascii_of_nat 10)).
    + change (last (?x :: ?l) ?d) with (last ([x] ++ l) d).
      rewrite last_app_not_nil; [exact IH | apply split_not_nil].
    + destruct (split (ascii_of_nat 10) s2) as [| piece pieces];
        [now destruct IH |].
      destruct pieces as [| q qs]; [discriminate | exact IH].
Qed.

(** ** Paths *)

Lemma basename_after_sep a b : basename (a ++ String "/" b) = basename b.
Proof.
  unfold basename. rewrite split_app_sep.
  apply last_app_not_nil, split_not_nil.
Qed.

Lemma endswith_sep_split a :
  endswith_sep a = true -> exists a', a = a' ++ "/".
Proof.
  induction a as [| c a IH]; [discriminate |].
  destruct a as [| c' a'].
  - simpl. intros Hc. apply Ascii.eqb_eq in Hc. subst c. now exists "".
  - intros Hends. destruct (IH Hends) as [a0 Ha0].
    exists (String c a0). simpl. now rewrite <- Ha0.
Qed.

Lemma header_of_joined_path_aux (directory file : string) :
  basename (path_join directory file) = basename file /\
  header (path_join directory file) = header file.
Proof.
  assert (Hbase : basename (path_join directory file) = basename file).
  { unfold path_join. destruct (startswith_sep file); [reflexivity |].
    destruct (String.eqb_spec directory "") as [-> | Hdir]; [reflexivity |].
    cbn [orb]. destruct (endswith_sep directory) eqn:Hends.
    - destruct (endswith_sep_split _ Hends) as [a' ->].
      rewrite append_assoc. apply basename_after_sep.
    - apply basename_after_sep. }
  split; [exact Hbase |]. unfold header. now rewrite Hbase.
Qed.

(** X3: the header written for a changed file names the base name of the
    file itself: joining the directory in front never changes it. *)
Theorem header_of_joined_path (directory file : string) :
  basename (path_join directory file) = basename file /\
  header (path_join directory file) = header file.
Proof.
  apply header_of_joined_path_aux.
Qed.

(** ** The local change resolver *)

Lemma get_changed_files_run w directory p :
  get_changed_files w directory p =
  match w_chdir w (cwd p) directory with
  | inl e =>
      if is_CalledProcessError e
      then (inr [], p,
            [EvChdir directory;
             EvLog LvError (LStr "Error getting changed files: %s") [LExn e]])
      else (inl e, p, [EvChdir directory])
  | inr d =>
      match w_check_output w d git_diff with
      | inl e =>
          if is_CalledProcessError e
          then (inr [], {| cwd := d |},
                [EvChdir directory; EvSubprocess d git_diff;
                 EvLog LvError (LStr "Error getting changed files: %s")
                   [LExn e]])
          else (inl e, {| cwd := d |},
                [EvChdir directory; EvSubprocess d git_diff])
      | inr output =>
          if strip output =? ""
          then (inr [], {| cwd := d |},
                [EvChdir directory; EvSubprocess d git_diff])
          else (inr (split (ascii_of_nat 10) (strip output)), {| cwd := d |},
                [EvChdir directory; EvSubprocess d git_diff;
                 EvLog LvInfo
                   (LStr "Found %d changed files in local repository")
                   [LNat (List.length
                            (split (ascii_of_nat 10) (strip output)))]])
      end
  end.
Proof.
  unfold get_changed_files, chdir, check_output, git_diff, bind, try, get_cwd,
    set_cwd, emit, lift, logging, ret, raise. simpl.
  destruct (w_chdir w (cwd p) directory) as [e | d]; simpl.
  - destruct (is_CalledProcessError e); reflexivity.
  - destruct (w_check_output w d _) as [e | output]; simpl.
    + destruct (is_CalledProcessError e); reflexivity.
    + destruct (strip output =? ""); reflexivity.
Qed.

(** X4: the paths [get_changed_files] returns never hold a newline, and
    when there are any, the first and the last of them are not empty. *)
Theorem changed_files_are_lines (w : World) (directory : string) (p : proc)
    (files : list string) :
  result (get_changed_files w directory p) = inr files ->
  Forall (fun file => has_char (ascii_of_nat 10) file = false) files /\
  (files <> [] -> hd "" files <> "" /\ last files "" <> "").
Proof.
  rewrite get_changed_files_run.
  assert (Hnone : forall fs : list string, inr (A := exn) [] = inr fs ->
            Forall (fun file => has_char (ascii_of_nat 10) file = false) fs /\
            (fs <> [] -> hd "" fs <> "" /\ last fs "" <> "")).
  { intros fs Hfs. inversion Hfs; subst. split; [constructor | congruence]. }
  unfold result.
  destruct (w_chdir w (cwd p) directory) as [e | d].
  - destruct (is_CalledProcessError e); cbn [fst]; [apply Hnone | discriminate].
  - destruct (w_check_output w d git_diff) as [e | output].
    + destruct (is_CalledProcessError e); cbn [fst];
        [apply Hnone | discriminate].
    + destruct (String.eqb_spec (strip output) "") as [Hempty | Hfull];
        cbn [fst]; [apply Hnone |].
      intros Hfiles. inversion Hfiles; subst. clear Hfiles.
      split; [apply split_pieces_without_sep |]. intros _.
      destruct (strip_shape output) as [Hnil | [[c [rest [Hshape Hc]]] Hends]];
        [contradiction |].
      split; [| now apply last_split_nonempty].
      rewrite Hshape. simpl.
      destruct (Ascii.eqb c (ascii_of_nat 10)) eqn:Hnl.
      * apply Ascii.eqb_eq in Hnl. subst c. discriminate Hc.
      * destruct (split (ascii_of_nat 10) rest); discriminate.
Qed.

Lemma changed_files_are_lines_witness :
  Forall (fun file => has_char (ascii_of_nat 10) file = false)
    ["file1.py"; "file2.py"] /\
  (["file1.py"; "file2.py"] <> [] ->
   hd "" ["file1.py"; "file2.py"] <> "" /\
   last ["file1.py"; "file2.py"] "" <> "").
Proof.
  apply (changed_files_are_lines Fixtures.two_changes_world "some/repo"
           Fixtures.here).
  reflexivity.
Defined.

(** X5: [get_changed_files] never raises [CalledProcessError]: a [git diff]
    that exits non-zero gives the empty list.  Once [chdir] has succeeded,
    the process stays in the new directory, whether [git diff] then
    succeeds, fails or raises. *)
Theorem get_changed_files_keeps_new_directory (w : World) (directory : string)
    (p : proc) :
  (forall e, result (get_changed_files w directory p) = inl e ->
             is_CalledProcessError e = false) /\
  (forall d e, w_chdir w (cwd p) directory = inr d ->
               w_check_output w d git_diff = inl e ->
               is_CalledProcessError e = true ->
               result (get_changed_files w directory p) = inr []) /\
  (forall d, w_chdir w (cwd p) directory = inr d ->
             final (get_changed_files w directory p) = {| cwd := d |}).
Proof.
  rewrite get_changed_files_run. unfold result, final. repeat split.
  - intros e.
    destruct (w_chdir w (cwd p) directory) as [e1 | d].
    + destruct (is_CalledProcessError e1) eqn:He1; cbn [fst];
        [discriminate |]. intros He. now inversion He; subst.
    + destruct (w_check_output w d git_diff) as [e2 | output].
      * destruct (is_CalledProcessError e2) eqn:He2; cbn [fst];
          [discriminate |]. intros He. now inversion He; subst.
      * destruct (strip output =? ""); discriminate.
  - intros d e Hchdir Hdiff Hclass. now rewrite Hchdir, Hdiff, Hclass.
  - intros d Hchdir. rewrite Hchdir.
    destruct (w_check_output w d git_diff) as [e | output].
    + destruct (is_CalledProcessError e); reflexivity.
    + destruct (strip output =? ""); reflexivity.
Qed.

Lemma get_changed_files_keeps_new_directory_witness :
  result (get_changed_files Cases.diff_fails_world "/repo" Fixtures.here)
  = inr [] /\
  final (get_changed_files Cases.diff_fails_world "/repo" Fixtures.here)
  = {| cwd := "/repo" |}.
Proof.
  pose proof (get_changed_files_keeps_new_directory Cases.diff_fails_world
                "/repo" Fixtures.here) as [_ [Hfail Hstay]].
  split.
  - apply (Hfail "/repo"
             (CalledProcessError
                "Command 'git' returned non-zero exit status 129."));
      reflexivity.
  - apply Hstay. reflexivity.
Defined.

(** ** How often the backend is asked *)

Lemma backend_calls_app t1 t2 :
  backend_calls (t1 ++ t2) = backend_calls t1 + backend_calls t2.
Proof. unfold backend_calls. now rewrite filter_app, length_app. Qed.

Lemma backend_calls_none t :
  forallb (fun e => negb (is_backend_call e)) t = true -> backend_calls t = 0.
Proof.
  unfold backend_calls. induction t as [| e t IH]; [reflexivity |].
  simpl. destruct (is_backend_call e); [discriminate |]. exact IH.
Qed.

Lemma logs_are_no_backend_calls t :
  forallb is_log t = true -> backend_calls t = 0.
Proof.
  intros Hlogs. apply backend_calls_none.
  rewrite forallb_forall in *. intros e He. specialize (Hlogs e He).
  now destruct e.
Qed.

(** Every variant sends its one request first and does nothing else that
    can be seen; the working directory is left alone. *)
Lemma scan_code_trace_shape w client code_summary p :
  exists ev,
    trace (scan_code w client code_summary p) = [ev] /\
    is_backend_call ev = true /\
    final (scan_code w client code_summary p) = p.
Proof.
  destruct client as [c | c | c | c];
    unfold scan_code, OpenAIClient_scan_code, GoogleClient_scan_code,
      GroqClient_scan_code, CustomAIClient_scan_code, OpenAIClient_exchange,
      GoogleClient_exchange, GroqClient_exchange, CustomAIClient_exchange,
      except_Exception, first_choice, chat_create, generate_content, post,
      bind, try, emit, lift, lift_opt, ret, raise, trace, final; simpl.
  - destruct (w_chat_create w OpenAI _ _ _) as [e | [| content rest]];
      eexists; repeat split.
  - destruct (w_generate_content w _ _ _) as [e | [e | text]];
      eexists; repeat split.
  - destruct (w_chat_create w Groq _ _ _) as [e | [| content rest]];
      eexists; repeat split.
  - destruct (w_post w _) as [e | response].
    + destruct (is_RequestException e); eexists; repeat split.
    + destruct (resp_raise_for_status response) as [e |].
      * destruct (is_RequestException e); eexists; repeat split.
      * destruct (resp_json response) as [e | body]; simpl.
        -- destruct (is_RequestException e); eexists; repeat split.
        -- destruct (get body "message" (PyDict [])) as [e | message]; simpl.
           ++ destruct (is_RequestException e); eexists; repeat split.
           ++ destruct (get message "content" (PyStr "No response content."))
                as [e | content]; simpl.
              ** destruct (is_RequestException e); eexists; repeat split.
              ** eexists; repeat split.
Qed.

(** X6: one call of [scan_code], on any of the four variants, sends exactly
    one request to its backend, whether the call then succeeds, returns an
    error text or raises, and leaves the working directory as it was. *)
Theorem scan_code_sends_one_request (w : World) (client : ai_client)
    (code_summary : string) (p : proc) :
  backend_calls (trace (scan_code w client code_summary p)) = 1 /\
  List.length (trace (scan_code w client code_summary p)) = 1 /\
  final (scan_code w client code_summary p) = p.
Proof.
  destruct (scan_code_trace_shape w client code_summary p)
    as [ev [Htrace [Hev Hfinal]]].
  rewrite Htrace. unfold backend_calls. simpl. rewrite Hev.
  repeat split. exact Hfinal.
Qed.

Lemma scan_files_run w directory client p :
  scan_files w directory client p =
  let file_paths :=
    flat_map (fun entry : string * list string * list string =>
                map (path_join (fst (fst entry))) (snd entry))
      (w_walk w (cwd p) directory) in
  let summary :=
    String.concat "" (map (contribution w (cwd p)) file_paths) in
  (result (scan_code w client summary p),
   final (scan_code w client summary p),
   (flat_map (records w (cwd p)) file_paths
    ++ trace (scan_code w client summary p))%list).
Proof.
  unfold scan_files, walk. cbv zeta.
  unfold bind at 1, get_cwd, bind at 1, ret at 1. cbn [app].
  replace (flat_map _ (w_walk w (cwd p) directory))
    with (flat_map (fun entry : string * list string * list string =>
                      map (path_join (fst (fst entry))) (snd entry))
            (w_walk w (cwd p) directory)).
  2:{ apply flat_map_ext. now intros [[root dirs] files]. }
  rewrite (bind_ok _ _ _ _ _ _ (read_files_run w _ p)).
  reflexivity.
Qed.

(** X7: [scan_files] asks the backend exactly once, after reading, whatever
    the directory holds: everything before the request is a log record. *)
Theorem scan_files_sends_one_request (w : World) (directory : string)
    (client : ai_client) (p : proc) :
  backend_calls (trace (scan_files w directory client p)) = 1 /\
  exists logs ev,
    trace (scan_files w directory client p) = (logs ++ [ev])%list /\
    forallb is_log logs = true /\
    is_backend_call ev = true.
Proof.
  rewrite scan_files_run. cbv zeta. unfold trace at 1 3. cbn [snd].
  set (file_paths := flat_map _ (w_walk w (cwd p) directory)).
  set (summary := String.concat "" _).
  destruct (scan_code_trace_shape w client summary p)
    as [ev [Htrace [Hev _]]].
  rewrite Htrace.
  assert (Hlogs : forallb is_log (flat_map (records w (cwd p)) file_paths)
                  = true).
  { pose proof (read_files_emit_logs w file_paths p) as H.
    rewrite read_files_run in H. exact H. }
  split.
  - rewrite backend_calls_app, (logs_are_no_backend_calls _ Hlogs).
    unfold backend_calls. simpl. now rewrite Hev.
  - now exists (flat_map (records w (cwd p)) file_paths), ev.
Qed.

(** X8: on a tree in which [os.walk] finds no file, [scan_files] still
    calls the backend, with the empty summary. *)
Theorem scan_files_without_files (w : World) (directory : string)
    (client : ai_client) (p : proc) :
  Forall (fun entry : string * list string * list string => snd entry = [])
    (w_walk w (cwd p) directory) ->
  scan_files w directory client p = scan_code w client "" p.
Proof.
  intros Hempty. rewrite scan_files_run. cbv zeta.
  assert (Hpaths : flat_map
            (fun entry : string * list string * list string =>
               map (path_join (fst (fst entry))) (snd entry))
            (w_walk w (cwd p) directory) = []).
  { induction Hempty as [| entry rest Hentry _ IH]; [reflexivity |].
    simpl. now rewrite Hentry, IH. }
  rewrite Hpaths. simpl. symmetry. apply run_eta.
Qed.

Lemma scan_files_without_files_witness :
  scan_files Fixtures.quiet "." (OpenAIClient Fixtures.a_hosted_client)
    Fixtures.here
  = scan_code Fixtures.quiet (OpenAIClient Fixtures.a_hosted_client) ""
      Fixtures.here.
Proof.
  apply (scan_files_without_files Fixtures.quiet "."
           (OpenAIClient Fixtures.a_hosted_client) Fixtures.here).
  constructor.
Defined.

(** X9: with a hosted backend [scan_files] never raises: unreadable files
    are skipped and a failure of the provider comes back as text. *)
Theorem scan_files_hosted_never_raises (w : World) (directory : string)
    (client : ai_client) (p : proc) :
  is_hosted client = true ->
  exists v, result (scan_files w directory client p) = inr v.
Proof.
  intros Hhosted. rewrite scan_files_run. cbv zeta.
  rewrite (scan_code_hosted_run _ _ _ _ Hhosted).
  eexists. reflexivity.
Qed.

Lemma scan_files_hosted_never_raises_witness :
  exists v,
    result (scan_files Fixtures.failing_provider_world "."
              (OpenAIClient Fixtures.a_hosted_client) Fixtures.here) = inr v.
Proof.
  apply (scan_files_hosted_never_raises Fixtures.failing_provider_world "."
           (OpenAIClient Fixtures.a_hosted_client) Fixtures.here).
  reflexivity.
Defined.

(** ** scan_changes, further *)

Lemma scan_changes_backend_calls_aux (w : World) (directory : string)
    (client : ai_client) (repo pr_number github_token : value) (p : proc) :
  backend_calls
    (trace (scan_changes w directory client repo pr_number github_token p))
  = match result (resolve w directory repo pr_number github_token p) with
    | inr (_ :: _) => 1
    | _ => 0
    end.
Proof.
  rewrite scan_changes_run.
  pose proof (resolve_emits w directory repo pr_number github_token p) as Ht.
  unfold result, trace in *.
  destruct (resolve w directory repo pr_number github_token p)
    as [[[e | [| file files]] p'] t]; cbn [fst snd] in *.
  - destruct (is_ValueError e); cbn [snd].
    + rewrite backend_calls_app, (backend_calls_none _ Ht). reflexivity.
    + apply backend_calls_none, Ht.
  - rewrite backend_calls_app, (backend_calls_none _ Ht). reflexivity.
  - cbv zeta. cbn [snd].
    set (paths := map (path_join directory) (file :: files)).
    set (summary := String.concat "" _).
    destruct (scan_code_trace_shape w client summary p')
      as [ev [Htrace [Hev _]]].
    unfold trace in Htrace. rewrite Htrace.
    rewrite !backend_calls_app, (backend_calls_none _ Ht).
    assert (Hlogs : forallb is_log (flat_map (records w (cwd p')) paths)
                    = true).
    { pose proof (read_files_emit_logs w paths p') as H.
      rewrite read_files_run in H. exact H. }
    rewrite (logs_are_no_backend_calls _ Hlogs).
    unfold backend_calls. simpl. now rewrite Hev.
Qed.

(** X10: [scan_changes] asks the backend exactly once when the resolver
    returns at least one changed file, and never otherwise: not when the
    resolver raises, and not when it returns the empty list. *)
Theorem scan_changes_backend_calls (w : World) (directory : string)
    (client : ai_client) (repo pr_number github_token : value) (p : proc) :
  backend_calls
    (trace (scan_changes w directory client repo pr_number github_token p))
  = match result (resolve w directory repo pr_number github_token p) with
    | inr (_ :: _) => 1
    | _ => 0
    end.
Proof.
  apply scan_changes_backend_calls_aux.
Qed.

(** X11: in the pull-request strategy with a token, the first GitHub call
    that fails ends [scan_changes].  The run holds the calls up to the
    failing one, each once and in order (repository, pull request, files),
    and nothing after it: no second attempt, no git subprocess, no
    backend call.  The exception is raised by [scan_changes], unless it is
    a [ValueError] (or a subclass), which is logged and returned as its
    message. *)
Theorem github_error_ends_scan_changes (w : World) (directory : string)
    (client : ai_client) (repo pr_number github_token : value) (p : proc)
    (e : exn) :
  truthy repo = true ->
  truthy pr_number = true ->
  truthy github_token = true ->
  let ended (calls : list event) :=
    scan_changes w directory client repo pr_number github_token p =
    (if is_ValueError e
     then (inr (PyStr (exn_str e)), p,
           (calls ++ [EvLog LvError (LExn e) []])%list)
     else (inl e, p, calls)) in
  (w_get_repo w github_token repo = Some e ->
   ended [EvGetRepo github_token repo]) /\
  (w_get_repo w github_token repo = None ->
   w_get_pull w github_token repo pr_number = Some e ->
   ended [EvGetRepo github_token repo;
          EvGetPull github_token repo pr_number]) /\
  (w_get_repo w github_token repo = None ->
   w_get_pull w github_token repo pr_number = None ->
   w_get_files w github_token repo pr_number = inl e ->
   ended [EvGetRepo github_token repo;
          EvGetPull github_token repo pr_number;
          EvGetFiles github_token repo pr_number]).
Proof.
  intros Hrepo Hpr Htoken ended. subst ended. cbv beta.
  assert (Hrun : forall calls,
            fetch_changed_files_from_pr w repo pr_number github_token p
            = (inl e, p, calls) ->
            scan_changes w directory client repo pr_number github_token p =
            (if is_ValueError e
             then (inr (PyStr (exn_str e)), p,
                   (calls ++ [EvLog LvError (LExn e) []])%list)
             else (inl e, p, calls))).
  { intros calls Hfetch. rewrite scan_changes_run. unfold resolve.
    rewrite Hrepo, Hpr. cbn [andb]. now rewrite Hfetch. }
  repeat split.
  - intros Hget_repo. apply Hrun.
    unfold fetch_changed_files_from_pr, get_pr_changed_files.
    rewrite Htoken. cbn [negb].
    unfold bind, emit, lift_opt, lift, raise, ret, logging.
    now rewrite Hget_repo.
  - intros Hget_repo Hget_pull. apply Hrun.
    unfold fetch_changed_files_from_pr, get_pr_changed_files.
    rewrite Htoken. cbn [negb].
    unfold bind, emit, lift_opt, lift, raise, ret, logging.
    now rewrite Hget_repo, Hget_pull.
  - intros Hget_repo Hget_pull Hget_files. apply Hrun.
    unfold fetch_changed_files_from_pr, get_pr_changed_files.
    rewrite Htoken. cbn [negb].
    unfold bind, emit, lift_opt, lift, raise, ret, logging.
    now rewrite Hget_repo, Hget_pull, Hget_files.
Qed.

Lemma github_error_ends_scan_changes_witness :
  scan_changes Cases.unknown_repo_world "/repo"
    (OpenAIClient Fixtures.a_hosted_client)
    (VStr "owner/missing") (VInt 7) (VStr "t") Fixtures.here
  = (inl (OtherError "UnknownObjectException" "404"), Fixtures.here,
     [EvGetRepo (VStr "t") (VStr "owner/missing")]).
Proof.
  apply (proj1 (github_error_ends_scan_changes Cases.unknown_repo_world
                  "/repo" (OpenAIClient Fixtures.a_hosted_client)
                  (VStr "owner/missing") (VInt 7) (VStr "t") Fixtures.here
                  (OtherError "UnknownObjectException" "404")
                  eq_refl eq_refl eq_refl)).
  reflexivity.
Defined.

(** X12: in the local strategy, a [git diff] that exits non-zero is not
    reported as a failure: [scan_changes] answers
    "No changes detected in the directory.", as for a clean work tree, and
    the backend is not called. *)
Theorem failed_diff_reads_as_no_changes (w : World) (directory : string)
    (client : ai_client) (repo pr_number github_token : value) (p : proc)
    (out d : string) (e : exn) :
  truthy repo && truthy pr_number = false ->
  w_check_output w (cwd p) (rev_parse directory) = inr out ->
  w_chdir w (cwd p) directory = inr d ->
  w_check_output w d git_diff = inl e ->
  is_CalledProcessError e = true ->
  result (scan_changes w directory client repo pr_number github_token p)
  = inr (PyStr "No changes detected in the directory.") /\
  backend_calls
    (trace (scan_changes w directory client repo pr_number github_token p))
  = 0.
Proof.
  intros Hlocal Hrepo Hchdir Hdiff Hclass.
  assert (Hresolve : exists t,
            resolve w directory repo pr_number github_token p
            = (inr [], {| cwd := d |}, t)).
  { unfold resolve, fetch_changed_files_from_repo. rewrite Hlocal.
    assert (Hvalid : is_git_repo w directory p
                     = (inr true, p,
                        [EvSubprocess (cwd p) (rev_parse directory)])).
    { rewrite is_git_repo_run. now rewrite Hrepo. }
    rewrite (bind_ok _ _ _ _ _ _ Hvalid). cbn [negb].
    rewrite get_changed_files_run, Hchdir, Hdiff, Hclass.
    eexists. reflexivity. }
  destruct Hresolve as [t Hresolve].
  split.
  - rewrite scan_changes_run, Hresolve. reflexivity.
  - pose proof (scan_changes_backend_calls_aux w directory client repo
                  pr_number github_token p) as Hcalls.
    rewrite Hresolve in Hcalls. exact Hcalls.
Qed.

Lemma failed_diff_reads_as_no_changes_witness :
  result (scan_changes Cases.diff_fails_world "/repo"
            (OpenAIClient Fixtures.a_hosted_client) VNone VNone VNone
            Fixtures.here)
  = inr (PyStr "No changes detected in the directory.") /\
  backend_calls
    (trace (scan_changes Cases.diff_fails_world "/repo"
              (OpenAIClient Fixtures.a_hosted_client) VNone VNone VNone
              Fixtures.here))
  = 0.
Proof.
  apply (failed_diff_reads_as_no_changes Cases.diff_fails_world "/repo"
           (OpenAIClient Fixtures.a_hosted_client) VNone VNone VNone
           Fixtures.here ("true" ++ nl) "/repo"
           (CalledProcessError
              "Command 'git' returned non-zero exit status 129."));
    reflexivity.
Defined.

(** ** The backends, further *)

(** X13: the OpenAI and Groq variants send the persona text as the system
    message and the code summary as the user message, and answer with the
    content of the first choice, whatever it is.  When the provider
    answers without any choice, the answer is the text
    "Error occurred: list index out of range". *)
Theorem chat_answer_is_first_choice (w : World) (pr : provider)
    (c : hosted_client) (code_summary : string) (p : proc)
    (choices : list pyval) :
  w_chat_create w pr (api_key c) (Clients.model c)
    [("system", system_prompt pr); ("user", code_summary)] = inr choices ->
  scan_code w (chat_client pr c) code_summary p =
  (inr (match choices with
        | content :: _ => content
        | [] => PyStr "Error occurred: list index out of range"
        end), p,
   [EvChatCreate pr (api_key c) (Clients.model c)
      [("system", system_prompt pr); ("user", code_summary)]]).
Proof.
  intros Hanswer.
  destruct pr; cbn [chat_client system_prompt] in *;
    unfold scan_code, OpenAIClient_scan_code, GroqClient_scan_code,
      OpenAIClient_exchange, GroqClient_exchange, chat_create, bind, try,
      emit, lift; simpl; rewrite Hanswer; now destruct choices.
Qed.

Lemma chat_answer_is_first_choice_witness :
  scan_code Cases.no_choice_world (OpenAIClient Fixtures.a_hosted_client)
    "x=1" Fixtures.here =
  (inr (PyStr "Error occurred: list index out of range"), Fixtures.here,
   [EvChatCreate OpenAI "key" "gpt-4o-mini"
      [("system", OpenAI_system_prompt); ("user", "x=1")]]).
Proof.
  apply (chat_answer_is_first_choice Cases.no_choice_world OpenAI
           Fixtures.a_hosted_client "x=1" Fixtures.here []).
  reflexivity.
Defined.

(** X14: the Google variant sends the persona text followed by the code
    summary as one prompt; an answer whose text cannot be read (the
    [text] property raises) comes back as "Error occurred: {message}". *)
Theorem google_answer (w : World) (c : hosted_client) (code_summary : string)
    (p : proc) (response : exn + pyval) :
  w_generate_content w (api_key c) (Clients.model c)
    (Google_prompt ++ code_summary) = inr response ->
  scan_code w (GoogleClient c) code_summary p =
  (inr (match response with
        | inr text => text
        | inl e => PyStr ("Error occurred: " ++ exn_str e)
        end), p,
   [EvGenerateContent (api_key c) (Clients.model c)
      (Google_prompt ++ code_summary)]).
Proof.
  intros Hanswer.
  unfold scan_code, GoogleClient_scan_code, GoogleClient_exchange,
    generate_content, bind, try, emit, lift, except_Exception, ret, raise.
  cbv beta iota. rewrite Hanswer.
  now destruct response.
Qed.

Lemma google_answer_witness :
  scan_code Fixtures.quiet (GoogleClient Fixtures.a_hosted_client) "x=1"
    Fixtures.here =
  (inr (PyStr ""), Fixtures.here,
   [EvGenerateContent "key" "gpt-4o-mini" (Google_prompt ++ "x=1")]).
Proof.
  apply (google_answer Fixtures.quiet Fixtures.a_hosted_client "x=1"
           Fixtures.here (inr (PyStr ""))).
  reflexivity.
Defined.

(** X15: when the custom server answers 200 with a JSON body that is not
    an object, or whose [message] is present and not an object,
    [CustomAIClient.scan_code] raises [AttributeError] instead of
    returning a text. *)
Theorem custom_answer_not_an_object (w : World)
    (model host port token endpoint : value) (code_summary : string)
    (p : proc) (response : http_response) (body : pyval) :
  w_post w (custom_request model host port token endpoint code_summary)
  = inr response ->
  resp_raise_for_status response = None ->
  resp_json response = inr body ->
  let run := scan_code w
               (CustomAIClient
                  (CustomAIClient_init model host port token endpoint))
               code_summary p in
  ((forall entries, body <> PyDict entries) ->
   result run
   = inl (AttributeError
            ("'" ++ type_name body ++ "' object has no attribute 'get'"))) /\
  (forall entries message,
     body = PyDict entries ->
     lookup "message" entries = Some message ->
     (forall fields, message <> PyDict fields) ->
     result run
     = inl (AttributeError
              ("'" ++ type_name message ++ "' object has no attribute 'get'"))).
Proof.
  intros Hpost Hstatus Hjson run. subst run.
  rewrite scan_code_custom_run, custom_exchange_run.
  unfold result. cbn [fst]. rewrite Hpost, Hstatus, Hjson. split.
  - intros Hbody. destruct body; try reflexivity. now destruct (Hbody entries).
  - intros entries message -> Hmessage Hnot. cbn [get]. rewrite Hmessage.
    destruct message; try reflexivity. now destruct (Hnot entries0).
Qed.

Lemma custom_answer_not_an_object_witness :
  result (scan_code Cases.array_body_world
            (CustomAIClient Fixtures.a_custom_client) "x=1" Fixtures.here)
  = inl (AttributeError "'list' object has no attribute 'get'").
Proof.
  apply (proj1 (custom_answer_not_an_object Cases.array_body_world (VStr "m")
                  (VStr "http://localhost") (VInt 8000) VNone
                  (VStr "/api/v1/scan") "x=1" Fixtures.here
                  {| resp_raise_for_status := None;
                     resp_json := inr (PyList []) |} (PyList [])
                  eq_refl eq_refl eq_refl)).
  discriminate.
Defined.

(** X16: an HTTP error status ends the exchange: when
    [raise_for_status()] raises, the body is not looked at, whatever it
    holds, and a [RequestException] comes back as
    "Error occurred while connecting to the server: {message}". *)
Theorem custom_http_error_status (w : World)
    (model host port token endpoint : value) (code_summary : string)
    (p : proc) (response : http_response) (e : exn) :
  w_post w (custom_request model host port token endpoint code_summary)
  = inr response ->
  resp_raise_for_status response = Some e ->
  is_RequestException e = true ->
  result (scan_code w
            (CustomAIClient
               (CustomAIClient_init model host port token endpoint))
            code_summary p)
  = inr (PyStr ("Error occurred while connecting to the server: "
                ++ exn_str e)).
Proof.
  intros Hpost Hstatus Hclass.
  rewrite scan_code_custom_run, custom_exchange_run.
  unfold result. cbn [fst]. now rewrite Hpost, Hstatus, Hclass.
Qed.

Lemma custom_http_error_status_witness :
  result (scan_code
            (Fixtures.with_post Fixtures.quiet
               (fun _ =>
                  inr {| resp_raise_for_status :=
                           Some (RequestException "500 Server Error");
                         resp_json :=
                           inr (PyDict
                                  [("message",
                                    PyDict [("content", PyStr "ignored")])])
                      |}))
            (CustomAIClient Fixtures.a_custom_client) "x=1" Fixtures.here)
  = inr (PyStr
      "Error occurred while connecting to the server: 500 Server Error").
Proof.
  apply (custom_http_error_status _ (VStr "m") (VStr "http://localhost")
           (VInt 8000) VNone (VStr "/api/v1/scan") "x=1" Fixtures.here
           {| resp_raise_for_status :=
                Some (RequestException "500 Server Error");
              resp_json :=
                inr (PyDict
                       [("message", PyDict [("content", PyStr "ignored")])])
           |} (RequestException "500 Server Error"));
    reflexivity.
Defined.

(** ** Building the client and running the scan from the command line *)

Lemma hosted_init_outcome (env : environ) (variable message : string)
    (init : string -> exn + hosted_client) (model : string) :
  init model =
    match env variable with
    | Some k =>
        if key_missing (Some k) then inl (ValueError message)
        else inr {| api_key := k; Clients.model := model |}
    | None => inl (ValueError message)
    end ->
  if key_missing (env variable)
  then init model = inl (ValueError message)
  else exists k, env variable = Some k /\ k <> "" /\
                 init model = inr {| api_key := k; Clients.model := model |}.
Proof.
  intros ->. destruct (env variable) as [k |]; [| reflexivity].
  cbn [key_missing]. destruct (String.eqb_spec k ""); [reflexivity |].
  now exists k.
Qed.

Lemma chosen_model_hosted provider model :
  provider <> Cli.ChCustom ->
  exists m, Cli.chosen_model provider model = inr m /\ m <> "" /\
            (Cli.default_models provider = Some m \/ model = Some m).
Proof.
  intros Hhosted. unfold Cli.chosen_model.
  destruct model as [m |]; cbn [Cli.value_of_str truthy str].
  - destruct (String.eqb_spec m "") as [-> | Hm]; cbn [negb].
    + destruct provider; try (now destruct Hhosted);
        eexists; (split; [reflexivity |]); (split; [discriminate |]);
        now left.
    + exists m. repeat split; [exact Hm | now right].
  - destruct provider; try (now destruct Hhosted);
      eexists; (split; [reflexivity |]); (split; [discriminate |]); now left.
Qed.



(** X18: a hosted client that [initialize_client] returns holds the key
    its provider's variable has in the environment, which is not empty,
    and a model that is not empty: the model given on the command line,
    or the provider's default when none, or the empty string, was
    given. *)
Theorem initialized_hosted_client (env : environ)
    (provider : Cli.provider_choice) (model host : option string)
    (port : option Z) (token endpoint : option string)
    (client : ai_client) (c : hosted_client) :
  Cli.initialize_client env provider model host port token endpoint
  = inr client ->
  hosted_part client = Some c ->
  api_key c <> "" /\
  (exists variable, key_variable provider = Some variable /\
                    env variable = Some (api_key c)) /\
  Clients.model c <> "" /\
  Clients.model c
  = match model with
    | Some m => if m =? "" then
                  match Cli.default_models provider with
                  | Some default => default
                  | None => ""
                  end
                else m
    | None => match Cli.default_models provider with
              | Some default => default
              | None => ""
              end
    end.
Proof.
  intros Hinit Hpart.
  assert (Hmodel : forall m,
            Cli.chosen_model provider model = inr m ->
            m = match model with
                | Some m => if m =? "" then
                              match Cli.default_models provider with
                              | Some default => default
                              | None => ""
                              end
                            else m
                | None => match Cli.default_models provider with
                          | Some default => default
                          | None => ""
                          end
                end).
  { unfold Cli.chosen_model. intros m.
    destruct model as [m0 |]; cbn [Cli.value_of_str truthy str].
    - destruct (m0 =? ""); cbn [negb].
      + destruct (Cli.default_models provider); [| discriminate].
        intros H. now inversion H.
      + intros H. now inversion H.
    - cbn [negb]. destruct (Cli.default_models provider); [| discriminate].
      intros H. now inversion H. }
  destruct provider; cbn [Cli.initialize_client] in Hinit.
  - destruct (chosen_model_hosted Cli.ChOpenai model) as [m [Hm [Hne _]]];
      [discriminate |]. rewrite Hm in Hinit. cbn [Cli.construct] in Hinit.
    pose proof (hosted_init_outcome env "OPENAI_API_KEY" _
                  (OpenAIClient_init env) m eq_refl) as H.
    destruct (key_missing (env "OPENAI_API_KEY")).
    + rewrite H in Hinit. discriminate Hinit.
    + destruct H as [k [Hk [Hkne H]]]. rewrite H in Hinit.
      inversion Hinit; subst. inversion Hpart; subst. cbn [api_key Clients.model].
      repeat split; try assumption; [now exists "OPENAI_API_KEY" |].
      now apply Hmodel.
  - destruct (chosen_model_hosted Cli.ChGoogle model) as [m [Hm [Hne _]]];
      [discriminate |]. rewrite Hm in Hinit. cbn [Cli.construct] in Hinit.
    pose proof (hosted_init_outcome env "GEMINI_API_KEY" _
                  (GoogleClient_init env) m eq_refl) as H.
    destruct (key_missing (env "GEMINI_API_KEY")).
    + rewrite H in Hinit. discriminate Hinit.
    + destruct H as [k [Hk [Hkne H]]]. rewrite H in Hinit.
      inversion Hinit; subst. inversion Hpart; subst. cbn [api_key Clients.model].
      repeat split; try assumption; [now exists "GEMINI_API_KEY" |].
      now apply Hmodel.
  - destruct (chosen_model_hosted Cli.ChGroq model) as [m [Hm [Hne _]]];
      [discriminate |]. rewrite Hm in Hinit. cbn [Cli.construct] in Hinit.
    pose proof (hosted_init_outcome env "GROQ_API_KEY" _
                  (GroqClient_init env) m eq_refl) as H.
    destruct (key_missing (env "GROQ_API_KEY")).
    + rewrite H in Hinit. discriminate Hinit.
    + destruct H as [k [Hk [Hkne H]]]. rewrite H in Hinit.
      inversion Hinit; subst. inversion Hpart; subst. cbn [api_key Clients.model].
      repeat split; try assumption; [now exists "GROQ_API_KEY" |].
      now apply Hmodel.
  - inversion Hinit; subst. discriminate Hpart.
Qed.

Lemma initialized_hosted_client_witness :
  api_key {| api_key := "secret"; Clients.model := "gemini-pro" |} <> "" /\
  (exists variable, key_variable Cli.ChGoogle = Some variable /\
                    Cases.all_keys variable = Some "secret") /\
  "gemini-pro" <> "" /\
  "gemini-pro" = "gemini-pro".
Proof.
  apply (initialized_hosted_client Cases.all_keys Cli.ChGoogle (Some "") None
           None None (Some "/api/v1/scan")
           (GoogleClient {| api_key := "secret"; Clients.model := "gemini-pro" |})
           {| api_key := "secret"; Clients.model := "gemini-pro" |});
    reflexivity.
Defined.

Lemma truthy_or_None v : truthy (Cli.or_None v) = truthy v.
Proof. unfold Cli.or_None. now destruct (truthy v) eqn:Hv. Qed.

Lemma or_None_truthy v : truthy v = true -> Cli.or_None v = v.
Proof. unfold Cli.or_None. now intros ->. Qed.

Lemma resolve_or_None w directory repo pr_number github_token :
  resolve w directory (Cli.or_None repo) (Cli.or_None pr_number)
    (Cli.or_None github_token)
  = resolve w directory repo pr_number github_token.
Proof.
  unfold resolve. rewrite !truthy_or_None.
  destruct (truthy repo) eqn:Hrepo; [| reflexivity].
  destruct (truthy pr_number) eqn:Hpr; [| reflexivity]. cbn [andb].
  rewrite (or_None_truthy _ Hrepo), (or_None_truthy _ Hpr).
  unfold fetch_changed_files_from_pr. rewrite truthy_or_None.
  destruct (truthy github_token) eqn:Htoken; [| reflexivity].
  now rewrite (or_None_truthy _ Htoken).
Qed.

(** X19: the [x if x else None] that [scan] applies to the repository, the
    pull-request number and the token changes nothing: [scan_changes]
    treats an empty string and a zero as it treats [None].  In
    changes-only mode [scan] is [scan_changes] on the arguments as parsed,
    and otherwise [scan_files]. *)
Theorem scan_passes_arguments_on (w : World) (a : Cli.args)
    (client : ai_client) :
  Cli.scan w a client =
  if Cli.changes_only a
  then scan_changes w (Cli.directory a) client
         (Cli.value_of_str (Cli.repo a)) (Cli.value_of_int (Cli.pr_number a))
         (Cli.value_of_str (Cli.github_token a))
  else scan_files w (Cli.directory a) client.
Proof.
  unfold Cli.scan. destruct (Cli.changes_only a); [| reflexivity].
  unfold scan_changes. now rewrite resolve_or_None.
Qed.



(** X21: once the client is built, [main] hands the scan result to
    [format_as_markdown]: a text comes out behind the line
    "## Code Security Analysis Results"; an answer that is not a text (a
    provider's choice without content, a JSON number or object from the
    custom server) makes [main] raise [TypeError]; an exception of the
    scan is raised unchanged. *)
Theorem main_formats_the_answer (env : environ) (w : World) (a : Cli.args)
    (p : proc) (client : ai_client) :
  Cli.initialize_client env (Cli.provider a) (Cli.model a) (Cli.host a)
    (Cli.port a) (Cli.token a) (Some (Cli.endpoint a)) = inr client ->
  result (Cli.main_body env w a p) =
  match result (Cli.scan w a client p) with
  | inl e => inl e
  | inr (PyStr text) => inr ("## Code Security Analysis Results" ++ nl ++ text)
  | inr other =>
      inl (OtherError "TypeError"
             ("can only concatenate str (not " ++ Cli.dq ++ type_name other
              ++ Cli.dq ++ ") to str"))
  end /\
  trace (Cli.main_body env w a p) = trace (Cli.scan w a client p) /\
  final (Cli.main_body env w a p) = final (Cli.scan w a client p).
Proof.
  intros Hinit. unfold Cli.main_body. rewrite Hinit.
  rewrite (bind_ok _ _ p client p [] eq_refl). cbn [app].
  unfold result at 1, final at 1, trace at 1. cbn [fst snd].
  rewrite <- run_eta.
  destruct (Cli.scan w a client p) as [[[e | v] p'] t] eqn:Hscan.
  - rewrite (bind_raise _ _ _ _ _ _ Hscan). repeat split.
  - rewrite (bind_ok _ _ _ _ _ _ Hscan). unfold result, final, trace.
    destruct v; simpl; rewrite ?app_nil_r; repeat split.
Qed.

Lemma main_formats_the_answer_witness :
  result (Cli.main_body Cases.all_keys Cases.null_content_world
            Cases.some_args Fixtures.here)
  = inl (OtherError "TypeError"
           ("can only concatenate str (not " ++ Cli.dq ++ "NoneType"
            ++ Cli.dq ++ ") to str")).
Proof.
  apply (proj1 (main_formats_the_answer Cases.all_keys
                  Cases.null_content_world Cases.some_args Fixtures.here
                  (OpenAIClient {| api_key := "secret";
                                   Clients.model := "gpt-4o-mini" |})
                  eq_refl)).
Defined.

(** ** The reader and the resolvers, end to end *)

(** X1: the reader never raises and leaves the process as it was.  Its
    summary is the concatenation, in input order, of what each path
    contributes on its own: nothing for a path that is no regular file or
    cannot be opened, the header and the text for a file that reads, and
    the header alone for a file that opens and then fails in [read()].
    The log records follow the paths in the same way. *)
Theorem reader_takes_each_path_on_its_own (w : World)
    (file_paths : list string) (p : proc) :
  read_files_and_generate_summary w file_paths p =
  (inr (String.concat "" (map (contribution w (cwd p)) file_paths)), p,
   flat_map (records w (cwd p)) file_paths).
Proof. apply read_files_run. Qed.

(** X2: when no changed file fails inside [read()],
    [generate_code_summary] returns the sections of the changed files
    that are regular files readable as UTF-8 under [directory], in the
    order given, each under a header that names the file's own base
    name. *)
Theorem generate_code_summary_sections (w : World) (directory : string)
    (changed_files : list string) (p : proc) :
  Forall (fun file =>
            forall fe,
              w_isfile w (cwd p) (path_join directory file) = true ->
              w_open w (cwd p) (path_join directory file) <> inr (inl fe))
    changed_files ->
  generate_code_summary w directory changed_files p =
  (inr (String.concat ""
          (map (changed_section w (cwd p) directory) changed_files)), p,
   flat_map (records w (cwd p)) (map (path_join directory) changed_files)).
Proof.
  intros Hok. unfold generate_code_summary. rewrite read_files_run.
  assert (Hmap : map (contribution w (cwd p))
                   (map (path_join directory) changed_files)
                 = map (changed_section w (cwd p) directory) changed_files).
  { rewrite map_map. apply map_ext_in. intros file Hin.
    rewrite Forall_forall in Hok. specialize (Hok file Hin).
    unfold contribution, changed_section.
    destruct (header_of_joined_path_aux directory file) as [_ ->].
    destruct (w_isfile w (cwd p) (path_join directory file)); [| reflexivity].
    destruct (w_open w (cwd p) (path_join directory file))
      as [fe | [fe | text]]; try reflexivity.
    now destruct (Hok fe eq_refl). }
  now rewrite Hmap.
Qed.

Lemma generate_code_summary_sections_witness :
  generate_code_summary Fixtures.two_changes_world "/some/repo"
    ["file1.py"; "src/file2.py"] Fixtures.here =
  (inr (String.concat ""
          (map (changed_section Fixtures.two_changes_world "/work" "/some/repo")
             ["file1.py"; "src/file2.py"])), Fixtures.here,
   flat_map (records Fixtures.two_changes_world "/work")
     (map (path_join "/some/repo") ["file1.py"; "src/file2.py"])).
Proof.
  apply (generate_code_summary_sections Fixtures.two_changes_world
           "/some/repo" ["file1.py"; "src/file2.py"] Fixtures.here).
  repeat constructor; discriminate.
Defined.

(** X22: with a token, when GitHub answers all three calls, the
    pull-request resolver asks for the repository, then the pull request,
    then its files, each with the given token, and returns the file names
    as GitHub lists them, logging how many there are. *)
Theorem fetch_from_pr_success (w : World) (repo pr_number github_token : value)
    (p : proc) (files : list string) :
  truthy github_token = true ->
  w_get_repo w github_token repo = None ->
  w_get_pull w github_token repo pr_number = None ->
  w_get_files w github_token repo pr_number = inr files ->
  fetch_changed_files_from_pr w repo pr_number github_token p =
  (inr files, p,
   [EvGetRepo github_token repo;
    EvGetPull github_token repo pr_number;
    EvGetFiles github_token repo pr_number;
    EvLog LvInfo (LStr "Fetched %d changed files from PR #%d in repo %s")
      [LNat (List.length files); LVal pr_number; LVal repo]]).
Proof.
  intros Htoken Hrepo Hpull Hfiles.
  unfold fetch_changed_files_from_pr, get_pr_changed_files. rewrite Htoken.
  cbn [negb]. unfold bind, emit, lift_opt, lift, logging, ret.
  now rewrite Hrepo, Hpull, Hfiles.
Qed.

Lemma fetch_from_pr_success_witness :
  fetch_changed_files_from_pr Fixtures.quiet (VStr "owner/repo") (VInt 7)
    (VStr "t") Fixtures.here =
  (inr [], Fixtures.here,
   [EvGetRepo (VStr "t") (VStr "owner/repo");
    EvGetPull (VStr "t") (VStr "owner/repo") (VInt 7);
    EvGetFiles (VStr "t") (VStr "owner/repo") (VInt 7);
    EvLog LvInfo (LStr "Fetched %d changed files from PR #%d in repo %s")
      [LNat 0; LVal (VInt 7); LVal (VStr "owner/repo")]]).
Proof.
  apply (fetch_from_pr_success Fixtures.quiet (VStr "owner/repo") (VInt 7)
           (VStr "t") Fixtures.here []); reflexivity.
Defined.

(** X23: in the local strategy on a valid repository with changes,
    [scan_changes] changes into the directory first and then reads every
    changed file at [directory] joined with its name, resolved from the
    new working directory; the backend gets that summary once and its
    answer is returned as it is. *)
Theorem scan_changes_local_reads_after_chdir (w : World) (directory : string)
    (client : ai_client) (repo pr_number github_token : value) (p : proc)
    (out d output : string) :
  truthy repo && truthy pr_number = false ->
  w_check_output w (cwd p) (rev_parse directory) = inr out ->
  w_chdir w (cwd p) directory = inr d ->
  w_check_output w d git_diff = inr output ->
  strip output <> "" ->
  let changed_files := split (ascii_of_nat 10) (strip output) in
  let summary :=
    String.concat ""
      (map (contribution w d) (map (path_join directory) changed_files)) in
  result (scan_changes w directory client repo pr_number github_token p)
  = result (scan_code w client summary {| cwd := d |}) /\
  final (scan_changes w directory client repo pr_number github_token p)
  = {| cwd := d |}.
Proof.
  intros Hlocal Hrepo Hchdir Hdiff Hfull changed_files summary.
  assert (Hresolve : exists t,
            resolve w directory repo pr_number github_token p
            = (inr changed_files, {| cwd := d |}, t)).
  { unfold resolve, fetch_changed_files_from_repo. rewrite Hlocal.
    assert (Hvalid : is_git_repo w directory p
                     = (inr true, p,
                        [EvSubprocess (cwd p) (rev_parse directory)])).
    { rewrite is_git_repo_run. now rewrite Hrepo. }
    rewrite (bind_ok _ _ _ _ _ _ Hvalid). cbn [negb].
    rewrite get_changed_files_run, Hchdir, Hdiff.
    apply String.eqb_neq in Hfull. rewrite Hfull.
    eexists. reflexivity. }
  destruct Hresolve as [t Hresolve].
  rewrite scan_changes_run, Hresolve.
  destruct changed_files as [| file files] eqn:Hfiles.
  - now destruct (split_not_nil (ascii_of_nat 10) (strip output)).
  - cbv zeta. unfold result at 1, final at 1. cbn [fst snd cwd].
    destruct (scan_code_trace_shape w client summary {| cwd := d |})
      as [ev [_ [_ Hfinal]]].
    split; [reflexivity | exact Hfinal].
Qed.

Lemma scan_changes_local_reads_after_chdir_witness :
  result (scan_changes Fixtures.two_changes_world "/some/repo"
            (OpenAIClient Fixtures.a_hosted_client) VNone VNone VNone
            Fixtures.here)
  = result (scan_code Fixtures.two_changes_world
              (OpenAIClient Fixtures.a_hosted_client)
              (String.concat ""
                 (map (contribution Fixtures.two_changes_world "/some/repo")
                    (map (path_join "/some/repo")
                       (split (ascii_of_nat 10)
                          (strip ("file1.py" ++ nl ++ "file2.py" ++ nl))))))
              {| cwd := "/some/repo" |}) /\
  final (scan_changes Fixtures.two_changes_world "/some/repo"
           (OpenAIClient Fixtures.a_hosted_client) VNone VNone VNone
           Fixtures.here)
  = {| cwd := "/some/repo" |}.
Proof.
  apply (scan_changes_local_reads_after_chdir Fixtures.two_changes_world
           "/some/repo" (OpenAIClient Fixtures.a_hosted_client)
           VNone VNone VNone Fixtures.here ("true" ++ nl) "/some/repo"
           ("file1.py" ++ nl ++ "file2.py" ++ nl));
    try reflexivity.
  discriminate.
Defined.
